(** * CAPM investor classifier: the scoring engine of [back.py]

    A shallow embedding of [classify_investor] and of the threshold
    tables it uses, over binary64 floats (Rocq's primitive floats are
    IEEE 754 binary64, as are Python's), unbounded integers ([Z], as
    Python's [int]) and explicit exceptions.  The Streamlit copy of the
    engine in [app.py] is embedded beside it where the two differ. *)

From Stdlib Require Import ZArith QArith List String Bool Lia.
From Stdlib Require Import Floats.PrimFloat Floats.SpecFloat Floats.FloatOps.
Import ListNotations.

Set Warnings "-inexact-float".
Local Open Scope Z_scope.

(** ** The Python runtime operations the engine relies on *)

Module Py.

(** Exceptions that the arithmetic of the engine can raise. *)
Inductive exn : Set :=
| OverflowError
| ZeroDivisionError.

Inductive Result (A : Type) : Type :=
| Ok (a : A)
| Raise (e : exn).
Arguments Ok {A} a.
Arguments Raise {A} e.

Definition bind {A B : Type} (m : Result A) (k : A -> Result B) : Result B :=
  match m with
  | Ok a => k a
  | Raise e => Raise e
  end.

Definition returned {A : Type} (m : Result A) : option A :=
  match m with
  | Ok a => Some a
  | Raise _ => None
  end.

Definition map {A B : Type} (f : A -> B) (m : Result A) : Result B :=
  bind m (fun a => Ok (f a)).

(** An [int] seen as an exact (unrounded) binary number. *)
Definition int_to_SF (z : Z) : spec_float :=
  match z with
  | Z0 => S754_zero false
  | Zpos p => S754_finite false p 0
  | Zneg p => S754_finite true p 0
  end.

(** [a / b] on two [int]s: the correctly rounded quotient;
    [ZeroDivisionError] on a zero divisor, [OverflowError] when the
    quotient is too large for a float.  A zero numerator gives a zero
    whose sign is the divisor's. *)
Definition int_truediv (a b : Z) : Result float :=
  if b =? 0 then Raise ZeroDivisionError
  else match SFdiv prec emax (int_to_SF a) (int_to_SF b) with
       | S754_infinity _ => Raise OverflowError
       | q => Ok (SF2Prim q)
       end.

(** Nearest integer to [n / d], ties to even ([0 <= n], [0 < d]). *)
Definition div_half_even (n d : Z) : Z :=
  let (q, r) := Z.div_eucl n d in
  match 2 * r ?= d with
  | Lt => q
  | Gt => q + 1
  | Eq => if Z.even q then q else q + 1
  end.

(** The number of hundredths nearest to the exact value [m * 2^e]. *)
Definition hundredths (m : positive) (e : Z) : Z :=
  match e with
  | Zneg k => div_half_even (Zpos m * 100) (2 ^ Zpos k)
  | _ => Zpos m * 100 * 2 ^ e
  end.

(** [round(x, 2)] on a float: the exact value of [x] is rounded to
    two decimals, ties to even, and the decimal that results is read
    back as the nearest float.  Zeros, infinities and nan round to
    themselves. *)
Definition round2 (x : float) : float :=
  match Prim2SF x with
  | S754_finite s m e =>
      let r := SF2Prim (SFdiv prec emax (int_to_SF (hundredths m e))
                                        (int_to_SF 100)) in
      if s then (- r)%float else r
  | _ => x
  end.

(** Truth value of a float: false for [0.0] and [-0.0] only. *)
Definition float_truthy (x : float) : bool := negb (x =? 0)%float.

(** [x or d] on an optional [int]: [None] and [0] are falsy. *)
Definition int_or (x : option Z) (d : Z) : Z :=
  match x with
  | Some v => if v =? 0 then d else v
  | None => d
  end.

(** [x or d] on an optional float. *)
Definition float_or (x : option float) (d : float) : float :=
  match x with
  | Some v => if float_truthy v then v else d
  | None => d
  end.

(** Truth value of an optional [int], [bool] and [str]. *)
Definition int_truthy (x : option Z) : bool :=
  match x with
  | Some v => negb (v =? 0)
  | None => false
  end.

Definition bool_truthy (x : option bool) : bool :=
  match x with
  | Some b => b
  | None => false
  end.

Definition str_truthy (x : option string) : bool :=
  match x with
  | Some EmptyString => false
  | Some _ => true
  | None => false
  end.

(** [sum(l)] of a list of floats: additions from left to right, the
    accumulator starting at [0].  (Recent CPython also compensates the
    rounding errors of the additions; on the lists summed here, at most
    three small whole numbers, there are none.) *)
Definition sum (l : list float) : float :=
  fold_left PrimFloat.add l 0%float.

(** [len(l)], converted as the division [sum(l) / len(l)] does. *)
Definition len (l : list float) : float :=
  SF2Prim (int_to_SF (Z.of_nat (List.length l))).

End Py.

Import Py.

Declare Scope py_scope.
Delimit Scope py_scope with py.
Notation "x <- m ;; k" := (bind m (fun x => k))
  (at level 61, m at next level, right associativity) : py_scope.

Local Open Scope string_scope.
Local Open Scope float_scope.

(** ** Input schema *)

Record Insurance : Set := {
  has_health : option bool;
  has_life : option bool
}.

(** The fields hold what the validated model holds: [None] is Python's
    [None].  A missing key takes the field's default, see
    [InvestorInput_default]. *)
Record InvestorInput : Set := {
  age : option Z;
  monthly_income : option Z;
  monthly_emi : option Z;
  emergency_fund_months : option float;
  emergency_fund_amount : option Z;
  monthly_expenses : option Z;
  insurance : option Insurance;
  insurance_amount : option Z;
  dependants : option Z;
  risk_attitude : option Z;
  investment_knowledge : option Z;
  drawdown_reaction : option string;
  risk_tolerance : option string;
  time_horizon : option Z;
  return_expectation : option float
}.

(** [InvestorInput()]: every key missing. *)
Definition InvestorInput_default : InvestorInput := {|
  age := Some 30%Z;
  monthly_income := Some 0%Z;
  monthly_emi := Some 0%Z;
  emergency_fund_months := None;
  emergency_fund_amount := None;
  monthly_expenses := None;
  insurance := None;
  insurance_amount := None;
  dependants := None;
  risk_attitude := None;
  investment_knowledge := None;
  drawdown_reaction := None;
  risk_tolerance := None;
  time_horizon := None;
  return_expectation := None
|}.

(** Field updates, as [data.model_copy(update={...})]. *)
Definition with_insurance_amount (v : option Z) (d : InvestorInput) :=
  {| age := age d; monthly_income := monthly_income d;
     monthly_emi := monthly_emi d;
     emergency_fund_months := emergency_fund_months d;
     emergency_fund_amount := emergency_fund_amount d;
     monthly_expenses := monthly_expenses d; insurance := insurance d;
     insurance_amount := v; dependants := dependants d;
     risk_attitude := risk_attitude d;
     investment_knowledge := investment_knowledge d;
     drawdown_reaction := drawdown_reaction d;
     risk_tolerance := risk_tolerance d; time_horizon := time_horizon d;
     return_expectation := return_expectation d |}.

Definition with_insurance (v : option Insurance) (d : InvestorInput) :=
  {| age := age d; monthly_income := monthly_income d;
     monthly_emi := monthly_emi d;
     emergency_fund_months := emergency_fund_months d;
     emergency_fund_amount := emergency_fund_amount d;
     monthly_expenses := monthly_expenses d; insurance := v;
     insurance_amount := insurance_amount d; dependants := dependants d;
     risk_attitude := risk_attitude d;
     investment_knowledge := investment_knowledge d;
     drawdown_reaction := drawdown_reaction d;
     risk_tolerance := risk_tolerance d; time_horizon := time_horizon d;
     return_expectation := return_expectation d |}.

Definition with_dependants (v : option Z) (d : InvestorInput) :=
  {| age := age d; monthly_income := monthly_income d;
     monthly_emi := monthly_emi d;
     emergency_fund_months := emergency_fund_months d;
     emergency_fund_amount := emergency_fund_amount d;
     monthly_expenses := monthly_expenses d; insurance := insurance d;
     insurance_amount := insurance_amount d; dependants := v;
     risk_attitude := risk_attitude d;
     investment_knowledge := investment_knowledge d;
     drawdown_reaction := drawdown_reaction d;
     risk_tolerance := risk_tolerance d; time_horizon := time_horizon d;
     return_expectation := return_expectation d |}.

Definition with_risk_attitude (v : option Z) (d : InvestorInput) :=
  {| age := age d; monthly_income := monthly_income d;
     monthly_emi := monthly_emi d;
     emergency_fund_months := emergency_fund_months d;
     emergency_fund_amount := emergency_fund_amount d;
     monthly_expenses := monthly_expenses d; insurance := insurance d;
     insurance_amount := insurance_amount d; dependants := dependants d;
     risk_attitude := v;
     investment_knowledge := investment_knowledge d;
     drawdown_reaction := drawdown_reaction d;
     risk_tolerance := risk_tolerance d; time_horizon := time_horizon d;
     return_expectation := return_expectation d |}.

Definition with_investment_knowledge (v : option Z) (d : InvestorInput) :=
  {| age := age d; monthly_income := monthly_income d;
     monthly_emi := monthly_emi d;
     emergency_fund_months := emergency_fund_months d;
     emergency_fund_amount := emergency_fund_amount d;
     monthly_expenses := monthly_expenses d; insurance := insurance d;
     insurance_amount := insurance_amount d; dependants := dependants d;
     risk_attitude := risk_attitude d;
     investment_knowledge := v;
     drawdown_reaction := drawdown_reaction d;
     risk_tolerance := risk_tolerance d; time_horizon := time_horizon d;
     return_expectation := return_expectation d |}.

(** ** Weights *)

Inductive weight_key : Set :=
| k_age
| k_financial_stability
| k_risk_tolerance
| k_time_horizon
| k_return_expectation.

Definition key_name (k : weight_key) : string :=
  match k with
  | k_age => "age"
  | k_financial_stability => "financial_stability"
  | k_risk_tolerance => "risk_tolerance"
  | k_time_horizon => "time_horizon"
  | k_return_expectation => "return_expectation"
  end.

(** The dict [WEIGHTS], a total function on its five literal keys. *)
Definition WEIGHTS (k : weight_key) : float :=
  match k with
  | k_age => 0.25
  | k_financial_stability => 0.30
  | k_risk_tolerance => 0.20
  | k_time_horizon => 0.15
  | k_return_expectation => 0.10
  end.

(** The keys in the order of the dict literal. *)
Definition WEIGHTS_keys : list weight_key :=
  [k_age; k_financial_stability; k_risk_tolerance; k_time_horizon;
   k_return_expectation].

(** ** Helper functions *)

Definition get_age_score (age : Z) : float :=
  if (age <=? 25)%Z then 90.0
  else if (age <=? 35)%Z then 75.0
  else if (age <=? 45)%Z then 60.0
  else if (age <=? 55)%Z then 40.0
  else if (age <=? 65)%Z then 20.0
  else 10.0.

Definition get_income_score_from_threshold (income : Z) : float :=
  if (income <? 20000)%Z then 30.0
  else if (income <? 50000)%Z then 40.0
  else if (income <? 100000)%Z then 50.0
  else if (income <? 500000)%Z then 60.0
  else if (income <? 1000000)%Z then 70.0
  else if (income <? 1500000)%Z then 80.0
  else if (income <? 2400000)%Z then 85.0
  else if (income <? 5000000)%Z then 90.0
  else if (income <? 7500000)%Z then 95.0
  else if (income <? 10000000)%Z then 97.0
  else 100.0.

Definition get_emergency_score_from_ratio (ratio : float) : float :=
  if 1.4 <? ratio then 90.0
  else if 1 <? ratio then 70.0
  else if 0.75 <? ratio then 60.0
  else if 0.5 <? ratio then 50.0
  else 30.0.

Definition get_debt_score_from_ratio (emi_ratio : float) : float :=
  if emi_ratio <? 5 then 90.0
  else if emi_ratio <? 15 then 75.0
  else if emi_ratio <? 25 then 60.0
  else if emi_ratio <? 50 then 45.0
  else 30.0.

Definition get_risk_tolerance_score (risk_tolerance : string) : float :=
  if String.eqb risk_tolerance "conservative" then 30.0
  else if String.eqb risk_tolerance "moderate" then 60.0
  else if String.eqb risk_tolerance "aggressive" then 90.0
  else 60.0.

Definition get_time_horizon_score (time_horizon : Z) : float :=
  if (time_horizon <=? 3)%Z then 35.0
  else if (time_horizon <=? 7)%Z then 65.0
  else 90.0.

Definition get_return_expectation_score (return_expectation : float) : float :=
  if return_expectation <? 8 then 35.0
  else if return_expectation <? 12 then 60.0
  else if return_expectation <? 15 then 75.0
  else 90.0.

Definition get_insurance_score (insurance_amount : option Z) : option float :=
  match insurance_amount with
  | None => None
  | Some a =>
      Some (if (a =? 0)%Z then 30.0
            else if (a <? 500000)%Z then 40.0
            else if (a <? 2500000)%Z then 60.0
            else if (a <? 10000000)%Z then 75.0
            else if (a <? 50000000)%Z then 90.0
            else 100.0)
  end.

Definition get_dependants_score (dependants : option Z) : option float :=
  match dependants with
  | None => None
  | Some n =>
      Some (if (n =? 0)%Z then 90.0
            else if (n <=? 2)%Z then 75.0
            else if (n <=? 5)%Z then 60.0
            else if (n <=? 8)%Z then 45.0
            else 30.0)
  end.

(** ** Classification *)

Record Factor : Set := {
  name : string;
  subscore : float;
  weight : option float;
  weighted : option float
}.

Record Classification : Set := {
  score : float;
  profile : string;
  recommendation : string;
  factors : list Factor
}.

(** A weighted entry of the factor list, as the dict literals of
    [classify_investor] build it: [sub] is the sub-score, [shown] the
    sub-score as reported. *)
Definition weighted_factor (k : weight_key) (shown sub : float) : Factor :=
  {| name := key_name k; subscore := shown;
     weight := Some (WEIGHTS k);
     weighted := Some (round2 (sub * WEIGHTS k)) |}.

(** An informational entry: weight and weighted are [None]. *)
Definition info_factor (n : string) (sub : float) : Factor :=
  {| name := n; subscore := sub; weight := None; weighted := None |}.

(** The local [emi_ratio]. *)
Definition emi_ratio (data : InvestorInput) : Result float :=
  let monthly_income := int_or (monthly_income data) 1 in
  let monthly_emi := int_or (monthly_emi data) 0 in
  if negb (monthly_income =? 0)%Z
  then (q <- int_truediv monthly_emi monthly_income ;; Ok (q * 100))%py
  else Ok 100.0.

(** The local [emergency_ratio]. *)
Definition emergency_ratio (data : InvestorInput) : Result float :=
  let monthly_expenses := int_or (monthly_expenses data) 0 in
  match emergency_fund_amount data, (0 <? monthly_expenses)%Z with
  | Some amount, true => int_truediv amount (6 * monthly_expenses)
  | _, _ =>
      match emergency_fund_months data with
      | Some months => Ok (months / 6)
      | None => Ok 0.0
      end
  end.

(** [likert.get(v, 60.0)] and [dd_map.get(s, 60.0)]. *)
Definition likert_get (v : Z) : float :=
  match v with
  | 1%Z => 30.0
  | 2%Z => 45.0
  | 3%Z => 60.0
  | 4%Z => 75.0
  | 5%Z => 90.0
  | _ => 60.0
  end.

Definition dd_map_get (s : string) : float :=
  if String.eqb s "sell" then 30.0
  else if String.eqb s "wait" then 60.0
  else if String.eqb s "buy_more" then 90.0
  else 60.0.

(** The list [risk_subs] once the three [if]s have run.  Under its
    guard, [int_or x 0] is the value that [x] holds. *)
Definition risk_subs (data : InvestorInput) : list float :=
  (if int_truthy (risk_attitude data)
   then [likert_get (int_or (risk_attitude data) 0)] else [])
  ++ (if int_truthy (investment_knowledge data)
      then [likert_get (int_or (investment_knowledge data) 0)] else [])
  ++ (match drawdown_reaction data with
      | Some dd => if str_truthy (Some dd) then [dd_map_get dd] else []
      | None => []
      end).

(** [sum(risk_subs)/len(risk_subs) if risk_subs else 60.0]. *)
Definition mean_or_default (risk_subs : list float) : float :=
  match risk_subs with
  | [] => 60.0
  | _ :: _ => Py.sum risk_subs / Py.len risk_subs
  end.

(** The local [risk_tolerance_sub]. *)
Definition risk_tolerance_sub (data : InvestorInput) : float :=
  let from_subs := mean_or_default (risk_subs data) in
  match risk_tolerance data with
  | Some rt =>
      if str_truthy (Some rt) then get_risk_tolerance_score rt else from_subs
  | None => from_subs
  end.

(** The five [score += sub * WEIGHTS[...]] starting from [score = 0.0]. *)
Definition weighted_sum (age_sub financial_sub risk_sub time_sub return_sub : float)
  : float :=
  0.0 + age_sub * WEIGHTS k_age
      + financial_sub * WEIGHTS k_financial_stability
      + risk_sub * WEIGHTS k_risk_tolerance
      + time_sub * WEIGHTS k_time_horizon
      + return_sub * WEIGHTS k_return_expectation.

(** [round(min(100, max(0, score)), 2)].  [max] keeps its first
    argument unless the second is greater, [min] unless the second is
    smaller; the [int]s [0] and [100] that they may return, which [round]
    leaves as they are, are carried as the floats of the same value. *)
Definition normalize (score : float) : float :=
  let lo := if 0 <? score then score else 0 in
  let hi := if lo <? 100 then lo else 100 in
  round2 hi.

Definition profile_of (score : float) : string :=
  if score <=? 25 then "Ultra-Conservative"
  else if score <=? 40 then "Conservative"
  else if score <=? 60 then "Moderate"
  else if score <=? 75 then "Moderate-Aggressive"
  else if score <=? 90 then "Aggressive"
  else "Ultra-Aggressive".

Definition recommendation_of (score : float) : string :=
  if 70 <=? score then "invest in equity > debt > gold"
  else if 40 <=? score then "invest in debt > equity > gold"
  else "invest in debt > gold > equity".

(** The local [insurance_sub] before it is tested. *)
Definition insurance_sub (data : InvestorInput) : option float :=
  match get_insurance_score (insurance_amount data), insurance data with
  | None, Some ins =>
      if bool_truthy (has_health ins) && bool_truthy (has_life ins)
      then Some 80.0
      else if bool_truthy (has_health ins) || bool_truthy (has_life ins)
      then Some 50.0
      else Some 30.0
  | s, _ => s
  end.

(** [if sub: factors.append({... "weight": None, "weighted": None})]. *)
Definition optional_factor (n : string) (sub : option float) : list Factor :=
  match sub with
  | Some s => if float_truthy s then [info_factor n s] else []
  | None => []
  end.

Definition classify_investor (data : InvestorInput) : Result Classification :=
  (
  (* Age *)
  let age_sub := get_age_score (int_or (age data) 30) in
  (* Financial Stability *)
  emi_ratio <- emi_ratio data ;;
  let debt_score := get_debt_score_from_ratio emi_ratio in
  let income_score :=
    get_income_score_from_threshold (int_or (monthly_income data) 1) in
  emergency_ratio <- emergency_ratio data ;;
  let emergency_score := get_emergency_score_from_ratio emergency_ratio in
  let financial_sub := (income_score + emergency_score + debt_score) / 3 in
  (* Risk Tolerance *)
  let risk_tolerance_sub := risk_tolerance_sub data in
  (* Time Horizon *)
  let time_sub := get_time_horizon_score (int_or (time_horizon data) 5) in
  (* Return Expectation *)
  let return_sub :=
    get_return_expectation_score (float_or (return_expectation data) 10.0) in
  (* Normalize & Profile *)
  let score :=
    normalize (weighted_sum age_sub financial_sub risk_tolerance_sub
                            time_sub return_sub) in
  (* Optional insurance and dependants *)
  Ok {| score := score;
        profile := profile_of score;
        recommendation := recommendation_of score;
        factors :=
          [ weighted_factor k_age age_sub age_sub;
            weighted_factor k_financial_stability
                            (round2 financial_sub) financial_sub;
            weighted_factor k_risk_tolerance
                            (round2 risk_tolerance_sub) risk_tolerance_sub;
            weighted_factor k_time_horizon time_sub time_sub;
            weighted_factor k_return_expectation return_sub return_sub ]
          ++ optional_factor "insurance" (insurance_sub data)
          ++ optional_factor "dependants"
                             (get_dependants_score (dependants data)) |}
  )%py.

(** The profile of the end-to-end example. *)
Definition example_input : InvestorInput := {|
  age := Some 28%Z;
  monthly_income := Some 120000%Z;
  monthly_emi := Some 15000%Z;
  emergency_fund_months := Some 4.0;
  emergency_fund_amount := None;
  monthly_expenses := None;
  insurance := None;
  insurance_amount := None;
  dependants := Some 1%Z;
  risk_attitude := Some 3%Z;
  investment_knowledge := Some 3%Z;
  drawdown_reaction := Some "wait";
  risk_tolerance := None;
  time_horizon := None;
  return_expectation := None
|}.


(** The seven scores that [classify_investor] derives from the input,
    in the order it computes them. *)
Record SubScores : Set := {
  age_sub : float;
  debt_score : float;
  income_score : float;
  emergency_score : float;
  risk_sub : float;
  time_sub : float;
  return_sub : float
}.

Definition sub_scores (data : InvestorInput) : Result SubScores :=
  (
  emi_ratio <- emi_ratio data ;;
  emergency_ratio <- emergency_ratio data ;;
  Ok {| age_sub := get_age_score (int_or (age data) 30);
        debt_score := get_debt_score_from_ratio emi_ratio;
        income_score :=
          get_income_score_from_threshold (int_or (monthly_income data) 1);
        emergency_score := get_emergency_score_from_ratio emergency_ratio;
        risk_sub := risk_tolerance_sub data;
        time_sub := get_time_horizon_score (int_or (time_horizon data) 5);
        return_sub :=
          get_return_expectation_score
            (float_or (return_expectation data) 10.0) |}
  )%py.

(** The local [financial_sub]. *)
Definition financial_sub (s : SubScores) : float :=
  (income_score s + emergency_score s + debt_score s) / 3.

(** The score before it is clamped and rounded. *)
Definition raw_score (s : SubScores) : float :=
  weighted_sum (age_sub s) (financial_sub s) (risk_sub s) (time_sub s)
               (return_sub s).

(** What a caller reads first: score, profile and recommendation. *)
Definition headline (r : Classification) : float * string * string :=
  (score r, profile r, recommendation r).

(** ** The Streamlit copy of the engine ([app.py]) *)

Module App.

(** [data.emergency_fund_months / 6 if data.emergency_fund_months
    else 0.0]: the amount and the expenses are not looked at. *)
Definition emergency_ratio (data : InvestorInput) : float :=
  match emergency_fund_months data with
  | Some months => if float_truthy months then months / 6 else 0.0
  | None => 0.0
  end.

(** The factor entries of [app.py] carry a name and a sub-score only. *)
Record Factor : Set := {
  name : string;
  subscore : float
}.

Record Classification : Set := {
  score : float;
  profile : string;
  recommendation : string;
  factors : list Factor
}.

(** [classify_investor] of [app.py]: the EMI ratio, the risk tolerance,
    the weighted sum, the profile and the recommendation are written as
    in [back.py]; the emergency ratio and the factor entries are not,
    and no insurance or dependants entry is appended. *)
Definition classify_investor (data : InvestorInput) : Result Classification :=
  (
  (* Age *)
  let age_sub := get_age_score (int_or (age data) 30) in
  (* Financial Stability *)
  emi_ratio <- emi_ratio data ;;
  let debt_score := get_debt_score_from_ratio emi_ratio in
  let income_score :=
    get_income_score_from_threshold (int_or (monthly_income data) 1) in
  let emergency_score :=
    get_emergency_score_from_ratio (emergency_ratio data) in
  let financial_sub := (income_score + emergency_score + debt_score) / 3 in
  (* Risk Tolerance *)
  let risk_tolerance_sub := risk_tolerance_sub data in
  (* Time Horizon *)
  let time_sub := get_time_horizon_score (int_or (time_horizon data) 5) in
  (* Return Expectation *)
  let return_sub :=
    get_return_expectation_score (float_or (return_expectation data) 10.0) in
  (* Normalize & Profile *)
  let score :=
    normalize (weighted_sum age_sub financial_sub risk_tolerance_sub
                            time_sub return_sub) in
  Ok {| score := score;
        profile := profile_of score;
        recommendation := recommendation_of score;
        factors :=
          [ {| name := "age"; subscore := age_sub |};
            {| name := "financial_stability";
               subscore := round2 financial_sub |};
            {| name := "risk_tolerance";
               subscore := round2 risk_tolerance_sub |};
            {| name := "time_horizon"; subscore := time_sub |};
            {| name := "return_expectation"; subscore := return_sub |} ] |}
  )%py.

End App.

(** ** Exact values, for stating what the float arithmetic computes *)

(** The float of a small integer (exact below [2^53]). *)
Definition float_of_Z (z : Z) : float := SF2Prim (int_to_SF z).

(** The integer part of the exact value of a float (rounded down). *)
Definition Zval (x : float) : Z :=
  match Prim2SF x with
  | S754_finite s m e =>
      let v := Z.shiftl (Zpos m) e in if s then (- v)%Z else v
  | _ => 0%Z
  end.

(** The exact value of a finite float, as a rational. *)
Definition Qval (x : float) : Q :=
  match Prim2SF x with
  | S754_finite s m e =>
      let v := (inject_Z (Zpos m) * Qpower 2 e)%Q in
      if s then (- v)%Q else v
  | _ => 0%Q
  end.

(** The decimal literals of [WEIGHTS], exactly. *)
Definition exact_weight (k : weight_key) : Q :=
  match k with
  | k_age => 25 # 100
  | k_financial_stability => 30 # 100
  | k_risk_tolerance => 20 # 100
  | k_time_horizon => 15 # 100
  | k_return_expectation => 10 # 100
  end.

(** The exact sub-score of each weighted factor: the value of the float
    the engine holds, and for financial stability the exact mean of its
    three components. *)
Definition exact_sub (k : weight_key) (s : SubScores) : Q :=
  match k with
  | k_age => Qval (age_sub s)
  | k_financial_stability =>
      (Qval (income_score s) + Qval (emergency_score s)
       + Qval (debt_score s)) / 3
  | k_risk_tolerance => Qval (risk_sub s)
  | k_time_horizon => Qval (time_sub s)
  | k_return_expectation => Qval (return_sub s)
  end%Q.

(** The composite in exact arithmetic: sum of sub-score times weight. *)
Definition exact_composite (s : SubScores) : Q :=
  fold_right (fun k acc => (exact_weight k * exact_sub k s + acc)%Q) 0%Q
             WEIGHTS_keys.

(** The same composite counted in hundredths. *)
Definition composite_cents (s : SubScores) : Z :=
  (25 * Zval (age_sub s)
   + 10 * (Zval (income_score s) + Zval (emergency_score s)
           + Zval (debt_score s))
   + 2 * Zval (10 * risk_sub s)
   + 15 * Zval (time_sub s)
   + 10 * Zval (return_sub s))%Z.

(** The float that is nearest to [n] hundredths. *)
Definition of_cents (n : Z) : float := float_of_Z n / 100.

(** ** The finite tables of reachable sub-scores *)

Definition age_table : list Z := [90; 75; 60; 40; 20; 10]%Z.
Definition income_table : list Z :=
  [30; 40; 50; 60; 70; 80; 85; 90; 95; 97; 100]%Z.
Definition emergency_table : list Z := [90; 70; 60; 50; 30]%Z.
Definition debt_table : list Z := [90; 75; 60; 45; 30]%Z.
(** Reachable risk-tolerance sub-scores, in tenths. *)
Definition risk_table : list Z :=
  [300; 350; 375; 400; 450; 500; 525; 550; 600; 650; 675; 700; 750; 800;
   825; 850; 900]%Z.
Definition time_table : list Z := [35; 65; 90]%Z.
Definition return_table : list Z := [35; 60; 75; 90]%Z.

(** A function of the seven table entries, tabulated. *)
Definition tabulate {B : Type} (f : Z -> Z -> Z -> Z -> Z -> Z -> Z -> B)
  : list (list (list (list (list (list (list B)))))) :=
  List.map (fun a =>
  List.map (fun d =>
  List.map (fun i =>
  List.map (fun e =>
  List.map (fun r =>
  List.map (fun t =>
  List.map (fun x => f a d i e r t x)
    return_table) time_table) risk_table) emergency_table) income_table)
    debt_table) age_table.

Definition table_scores (a d i e r t x : Z) : SubScores :=
  {| age_sub := float_of_Z a;
     debt_score := float_of_Z d;
     income_score := float_of_Z i;
     emergency_score := float_of_Z e;
     risk_sub := float_of_Z r / 10;
     time_sub := float_of_Z t;
     return_sub := float_of_Z x |}.

Definition table_raw (a d i e r t x : Z) : float :=
  raw_score (table_scores a d i e r t x).

Definition table_cents (a d i e r t x : Z) : Z :=
  (25 * a + 10 * (i + e + d) + 2 * r + 15 * t + 10 * x)%Z.

Definition table_exact (a d i e r t x : Z) : float :=
  of_cents (table_cents a d i e r t x).

(** Hundredths from 26.25 to 91.00 in steps of 0.05. *)
Definition cents_grid : list Z :=
  List.map (fun k => (5 * (525 + Z.of_nat k))%Z) (seq 0 1296).

(** The brackets of the profile label, read off the score. *)
Definition bracket_ok (s : float) (p : string) : bool :=
  implb (s <=? 25) (String.eqb p "Ultra-Conservative")
  && implb ((25 <? s) && (s <=? 40)) (String.eqb p "Conservative")
  && implb ((40 <? s) && (s <=? 60)) (String.eqb p "Moderate")
  && implb ((60 <? s) && (s <=? 75)) (String.eqb p "Moderate-Aggressive")
  && implb ((75 <? s) && (s <=? 90)) (String.eqb p "Aggressive")
  && implb (90 <? s) (String.eqb p "Ultra-Aggressive").

Definition profile_names : list string :=
  ["Ultra-Conservative"; "Conservative"; "Moderate"; "Moderate-Aggressive";
   "Aggressive"; "Ultra-Aggressive"].

(** The three recommendation strings against the score. *)
Definition recommendation_ok (s : float) (rec : string) : bool :=
  implb (70 <=? s) (String.eqb rec "invest in equity > debt > gold")
  && implb ((40 <=? s) && (s <? 70))
           (String.eqb rec "invest in debt > equity > gold")
  && implb (s <? 40) (String.eqb rec "invest in debt > gold > equity").

(** What has to hold of a score on the grid. *)
Definition grid_ok (s : float) : bool :=
  (0 <=? s) && (s <=? 100)
  && bracket_ok s (profile_of s)
  && recommendation_ok s (recommendation_of s).

(** ** Declarative readings used in the statements *)

(** The components of the risk-tolerance mean that were supplied: the
    Likert answers that are present and not zero, then the drawdown
    reaction if present and not empty, each mapped to its score. *)
Definition supplied_scores (data : InvestorInput) : list float :=
  (List.map likert_get
            (filter (fun v => negb (v =? 0)%Z)
                    (flat_map (fun o : option Z =>
                                 match o with Some v => [v] | None => [] end)
                              [risk_attitude data; investment_knowledge data]))
   ++ List.map dd_map_get
               (filter (fun s => negb (String.eqb s EmptyString))
                       (match drawdown_reaction data with
                        | Some s => [s]
                        | None => []
                        end)))%list.

(** The arithmetic mean of the exact values of a list of floats. *)
Definition exact_mean (l : list float) : Q :=
  (fold_right (fun x acc => Qval x + acc) 0 l
   / inject_Z (Z.of_nat (List.length l)))%Q.

(** Two profiles that differ in monthly income only, across the 20000
    threshold of the income table. *)
Definition low_income_input : InvestorInput := {|
  age := Some 30%Z;
  monthly_income := Some 19999%Z;
  monthly_emi := Some 15000%Z;
  emergency_fund_months := None;
  emergency_fund_amount := None;
  monthly_expenses := None;
  insurance := None;
  insurance_amount := None;
  dependants := None;
  risk_attitude := None;
  investment_knowledge := None;
  drawdown_reaction := None;
  risk_tolerance := None;
  time_horizon := None;
  return_expectation := None
|}.

Definition next_income_input : InvestorInput := {|
  age := Some 30%Z;
  monthly_income := Some 20000%Z;
  monthly_emi := Some 15000%Z;
  emergency_fund_months := None;
  emergency_fund_amount := None;
  monthly_expenses := None;
  insurance := None;
  insurance_amount := None;
  dependants := None;
  risk_attitude := None;
  investment_knowledge := None;
  drawdown_reaction := None;
  risk_tolerance := None;
  time_horizon := None;
  return_expectation := None
|}.

(** A profile that gives its emergency fund as an amount. *)
Definition amount_input : InvestorInput := {|
  age := Some 28%Z;
  monthly_income := Some 120000%Z;
  monthly_emi := Some 15000%Z;
  emergency_fund_months := None;
  emergency_fund_amount := Some 300000%Z;
  monthly_expenses := Some 75000%Z;
  insurance := Some {| has_health := Some true; has_life := Some false |};
  insurance_amount := None;
  dependants := Some 1%Z;
  risk_attitude := Some 1%Z;
  investment_knowledge := Some 5%Z;
  drawdown_reaction := Some "sell";
  risk_tolerance := None;
  time_horizon := None;
  return_expectation := None
|}.

(** The float nearest to a rational: what reading a decimal literal
    gives, and what [int / int] gives. *)
Definition nearest_float (q : Q) : float :=
  SF2Prim (SFdiv prec emax (int_to_SF (Qnum q)) (int_to_SF (Zpos (Qden q)))).

(** ** Further field updates *)

Definition with_age (v : option Z) (d : InvestorInput) :=
  {| age := v; monthly_income := monthly_income d;
     monthly_emi := monthly_emi d;
     emergency_fund_months := emergency_fund_months d;
     emergency_fund_amount := emergency_fund_amount d;
     monthly_expenses := monthly_expenses d; insurance := insurance d;
     insurance_amount := insurance_amount d; dependants := dependants d;
     risk_attitude := risk_attitude d;
     investment_knowledge := investment_knowledge d;
     drawdown_reaction := drawdown_reaction d;
     risk_tolerance := risk_tolerance d; time_horizon := time_horizon d;
     return_expectation := return_expectation d |}.

Definition with_monthly_income (v : option Z) (d : InvestorInput) :=
  {| age := age d; monthly_income := v;
     monthly_emi := monthly_emi d;
     emergency_fund_months := emergency_fund_months d;
     emergency_fund_amount := emergency_fund_amount d;
     monthly_expenses := monthly_expenses d; insurance := insurance d;
     insurance_amount := insurance_amount d; dependants := dependants d;
     risk_attitude := risk_attitude d;
     investment_knowledge := investment_knowledge d;
     drawdown_reaction := drawdown_reaction d;
     risk_tolerance := risk_tolerance d; time_horizon := time_horizon d;
     return_expectation := return_expectation d |}.

Definition with_monthly_emi (v : option Z) (d : InvestorInput) :=
  {| age := age d; monthly_income := monthly_income d;
     monthly_emi := v;
     emergency_fund_months := emergency_fund_months d;
     emergency_fund_amount := emergency_fund_amount d;
     monthly_expenses := monthly_expenses d; insurance := insurance d;
     insurance_amount := insurance_amount d; dependants := dependants d;
     risk_attitude := risk_attitude d;
     investment_knowledge := investment_knowledge d;
     drawdown_reaction := drawdown_reaction d;
     risk_tolerance := risk_tolerance d; time_horizon := time_horizon d;
     return_expectation := return_expectation d |}.

Definition with_monthly_expenses (v : option Z) (d : InvestorInput) :=
  {| age := age d; monthly_income := monthly_income d;
     monthly_emi := monthly_emi d;
     emergency_fund_months := emergency_fund_months d;
     emergency_fund_amount := emergency_fund_amount d;
     monthly_expenses := v; insurance := insurance d;
     insurance_amount := insurance_amount d; dependants := dependants d;
     risk_attitude := risk_attitude d;
     investment_knowledge := investment_knowledge d;
     drawdown_reaction := drawdown_reaction d;
     risk_tolerance := risk_tolerance d; time_horizon := time_horizon d;
     return_expectation := return_expectation d |}.

Definition with_drawdown_reaction (v : option string) (d : InvestorInput) :=
  {| age := age d; monthly_income := monthly_income d;
     monthly_emi := monthly_emi d;
     emergency_fund_months := emergency_fund_months d;
     emergency_fund_amount := emergency_fund_amount d;
     monthly_expenses := monthly_expenses d; insurance := insurance d;
     insurance_amount := insurance_amount d; dependants := dependants d;
     risk_attitude := risk_attitude d;
     investment_knowledge := investment_knowledge d;
     drawdown_reaction := v;
     risk_tolerance := risk_tolerance d; time_horizon := time_horizon d;
     return_expectation := return_expectation d |}.

Definition with_time_horizon (v : option Z) (d : InvestorInput) :=
  {| age := age d; monthly_income := monthly_income d;
     monthly_emi := monthly_emi d;
     emergency_fund_months := emergency_fund_months d;
     emergency_fund_amount := emergency_fund_amount d;
     monthly_expenses := monthly_expenses d; insurance := insurance d;
     insurance_amount := insurance_amount d; dependants := dependants d;
     risk_attitude := risk_attitude d;
     investment_knowledge := investment_knowledge d;
     drawdown_reaction := drawdown_reaction d;
     risk_tolerance := risk_tolerance d; time_horizon := v;
     return_expectation := return_expectation d |}.

Definition with_return_expectation (v : option float) (d : InvestorInput) :=
  {| age := age d; monthly_income := monthly_income d;
     monthly_emi := monthly_emi d;
     emergency_fund_months := emergency_fund_months d;
     emergency_fund_amount := emergency_fund_amount d;
     monthly_expenses := monthly_expenses d; insurance := insurance d;
     insurance_amount := insurance_amount d; dependants := dependants d;
     risk_attitude := risk_attitude d;
     investment_knowledge := investment_knowledge d;
     drawdown_reaction := drawdown_reaction d;
     risk_tolerance := risk_tolerance d; time_horizon := time_horizon d;
     return_expectation := v |}.

(** ** The request body and the form of [front.py] that posts it *)

Set Warnings "-register-all".

(** The JSON values that a request body is made of. *)
Inductive json : Set :=
| JNull
| JBool (b : bool)
| JInt (z : Z)
| JFloat (x : float)
| JStr (s : string)
| JObj (o : list (string * json)).

(** [o.get(key)] on a JSON object. *)
Fixpoint lookup (key : string) (o : list (string * json)) : option json :=
  match o with
  | [] => None
  | (k, v) :: o' => if String.eqb k key then Some v else lookup key o'
  end.

(** How the request model reads one field of its declared type: a
    missing key takes the default, [null] gives [None], a value of the
    field's type is kept, and anything else fails validation ([None]
    outermost).  Keys that name no field are never looked at.  (The
    conversions that validation also accepts, an integer for a float
    field and the like, are left out: the form sends none.) *)
Definition int_field (o : list (string * json)) (key : string)
           (default : option Z) : option (option Z) :=
  match lookup key o with
  | None => Some default
  | Some JNull => Some None
  | Some (JInt z) => Some (Some z)
  | Some _ => None
  end.

Definition float_field (o : list (string * json)) (key : string)
  : option (option float) :=
  match lookup key o with
  | None => Some None
  | Some JNull => Some None
  | Some (JFloat x) => Some (Some x)
  | Some _ => None
  end.

Definition bool_field (o : list (string * json)) (key : string)
  : option (option bool) :=
  match lookup key o with
  | None => Some (Some false)
  | Some JNull => Some None
  | Some (JBool b) => Some (Some b)
  | Some _ => None
  end.

Definition literal_field (o : list (string * json)) (key : string)
           (allowed : list string) : option (option string) :=
  match lookup key o with
  | None => Some None
  | Some JNull => Some None
  | Some (JStr s) =>
      if existsb (String.eqb s) allowed then Some (Some s) else None
  | Some _ => None
  end.

Definition insurance_field (o : list (string * json))
  : option (option Insurance) :=
  match lookup "insurance" o with
  | None => Some None
  | Some JNull => Some None
  | Some (JObj i) =>
      match bool_field i "has_health", bool_field i "has_life" with
      | Some h, Some l => Some (Some {| has_health := h; has_life := l |})
      | _, _ => None
      end
  | Some _ => None
  end.

Definition opt_bind {A B : Type} (m : option A) (k : A -> option B)
  : option B :=
  match m with
  | Some a => k a
  | None => None
  end.

(** The request body read as an [InvestorInput], field by field under
    the names and defaults of the class; [None] when validation fails. *)
Definition InvestorInput_validate (o : list (string * json))
  : option InvestorInput :=
  opt_bind (int_field o "age" (Some 30%Z)) (fun age =>
  opt_bind (int_field o "monthly_income" (Some 0%Z)) (fun monthly_income =>
  opt_bind (int_field o "monthly_emi" (Some 0%Z)) (fun monthly_emi =>
  opt_bind (float_field o "emergency_fund_months")
           (fun emergency_fund_months =>
  opt_bind (int_field o "emergency_fund_amount" None)
           (fun emergency_fund_amount =>
  opt_bind (int_field o "monthly_expenses" None) (fun monthly_expenses =>
  opt_bind (insurance_field o) (fun insurance =>
  opt_bind (int_field o "insurance_amount" None) (fun insurance_amount =>
  opt_bind (int_field o "dependants" None) (fun dependants =>
  opt_bind (int_field o "risk_attitude" None) (fun risk_attitude =>
  opt_bind (int_field o "investment_knowledge" None)
           (fun investment_knowledge =>
  opt_bind (literal_field o "drawdown_reaction" ["sell"; "wait"; "buy_more"])
           (fun drawdown_reaction =>
  opt_bind (literal_field o "risk_tolerance"
                          ["conservative"; "moderate"; "aggressive"])
           (fun risk_tolerance =>
  opt_bind (int_field o "time_horizon" None) (fun time_horizon =>
  opt_bind (float_field o "return_expectation") (fun return_expectation =>
  Some {| age := age; monthly_income := monthly_income;
          monthly_emi := monthly_emi;
          emergency_fund_months := emergency_fund_months;
          emergency_fund_amount := emergency_fund_amount;
          monthly_expenses := monthly_expenses; insurance := insurance;
          insurance_amount := insurance_amount; dependants := dependants;
          risk_attitude := risk_attitude;
          investment_knowledge := investment_knowledge;
          drawdown_reaction := drawdown_reaction;
          risk_tolerance := risk_tolerance; time_horizon := time_horizon;
          return_expectation := return_expectation |}))))))))))))))).

(** The route [POST /classify]: the validated body is classified. *)
Definition classify (body : list (string * json))
  : option (Result Classification) :=
  option_map classify_investor (InvestorInput_validate body).

Module Front.

(** The options of the drawdown select box. *)
Inductive reaction : Set :=
| wait
| sell
| buy_more.

Definition reaction_name (r : reaction) : string :=
  match r with
  | wait => "wait"
  | sell => "sell"
  | buy_more => "buy_more"
  end.

(** The radio button and the widgets that its choice shows. *)
Inductive emergency : Set :=
| Months (emergency_fund_months : float)
| AmountExpense (emergency_fund_amount monthly_expense : Z).

(** What the widgets hold when the form is submitted. *)
Record Form : Set := {
  age : Z;
  monthly_income : Z;
  monthly_emi : Z;
  emergency_choice : emergency;
  has_health : bool;
  has_life : bool;
  dependants : Z;
  risk_attitude : Z;
  investment_knowledge : Z;
  drawdown_reaction : reaction
}.

(** The dict [payload], keys in the order they are set. *)
Definition payload (f : Form) : list (string * json) :=
  [ ("age", JInt (age f));
    ("monthly_income", JInt (monthly_income f));
    ("monthly_emi", JInt (monthly_emi f));
    ("insurance", JObj [ ("has_health", JBool (has_health f));
                         ("has_life", JBool (has_life f)) ]);
    ("dependants", JInt (dependants f));
    ("risk_attitude", JInt (risk_attitude f));
    ("investment_knowledge", JInt (investment_knowledge f));
    ("drawdown_reaction", JStr (reaction_name (drawdown_reaction f))) ]
  ++ match emergency_choice f with
     | Months emergency_fund_months =>
         [ ("emergency_fund_months", JFloat emergency_fund_months) ]
     | AmountExpense emergency_fund_amount monthly_expense =>
         [ ("emergency_fund_amount", JInt emergency_fund_amount);
           ("monthly_expense", JInt monthly_expense) ]
     end.

End Front.

(** ** Tables for the order of scores *)

(** By how many hundredths the composite can rise when the age or the
    time-horizon sub-score rises from one table entry to another. *)
Definition score_rises : list Z :=
  filter (fun d => (0 <=? d)%Z)
         (flat_map (fun a => List.map (fun b => (25 * (a - b))%Z) age_table)
                   age_table
          ++ flat_map (fun a => List.map (fun b => (15 * (a - b))%Z)
                                         time_table)
                      time_table)%list.

(** The sums that income, emergency and debt score can add up to. *)
Definition financial_sums : list Z :=
  nodup Z.eq_dec
        (flat_map (fun d =>
           flat_map (fun i =>
             List.map (fun e => (i + e + d)%Z) emergency_table)
             income_table)
           debt_table).

(** A function of the age entry, the financial sum and the risk, time
    and return entries, tabulated. *)
Definition tabulate_sums {B : Type} (f : Z -> Z -> Z -> Z -> Z -> B)
  : list (list (list (list (list B)))) :=
  List.map (fun a =>
  List.map (fun s =>
  List.map (fun r =>
  List.map (fun t =>
  List.map (fun x => f a s r t x)
    return_table) time_table) risk_table) financial_sums) age_table.

(** The five weighted contributions as reported, added from [0.0]. *)
Definition reported_sum (a s r t x : Z) : float :=
  0.0 + of_cents (25 * a) + of_cents (10 * s) + of_cents (2 * r)
      + of_cents (15 * t) + of_cents (10 * x).

Definition reported_exact (a s r t x : Z) : float :=
  of_cents (25 * a + 10 * s + 2 * r + 15 * t + 10 * x).

(** Income, emergency and debt entries, tabulated. *)
Definition tabulate_financial {B : Type} (f : Z -> Z -> Z -> B)
  : list (list (list B)) :=
  List.map (fun d =>
  List.map (fun i =>
  List.map (fun e => f d i e) emergency_table) income_table) debt_table.

(** The table entry that an age and a time horizon score. *)
Definition age_entry (age : Z) : Z :=
  if (age <=? 25)%Z then 90
  else if (age <=? 35)%Z then 75
  else if (age <=? 45)%Z then 60
  else if (age <=? 55)%Z then 40
  else if (age <=? 65)%Z then 20
  else 10.

Definition time_entry (time_horizon : Z) : Z :=
  if (time_horizon <=? 3)%Z then 35
  else if (time_horizon <=? 7)%Z then 65
  else 90.

(** What holds of every score on the grid beyond [grid_ok]. *)
Definition grid_tight (s : float) : bool :=
  (26.25 <=? s) && (s <=? 91)
  && negb (String.eqb (profile_of s) "Ultra-Conservative")
  && implb (String.eqb (recommendation_of s) "invest in debt > gold > equity")
           (String.eqb (profile_of s) "Conservative")
  && implb (String.eqb (profile_of s) "Moderate")
           (String.eqb (recommendation_of s) "invest in debt > equity > gold")
  && implb (String.eqb (recommendation_of s) "invest in equity > debt > gold")
           (existsb (String.eqb (profile_of s))
                    ["Moderate-Aggressive"; "Aggressive"; "Ultra-Aggressive"])
  && implb (existsb (String.eqb (profile_of s))
                    ["Aggressive"; "Ultra-Aggressive"])
           (String.eqb (recommendation_of s)
                       "invest in equity > debt > gold").

(** A sub-score as the factor list may show it. *)
Definition shown_ok (s : float) : bool := (10 <=? s) && (s <=? 100).

(** The scores of the components of the risk-tolerance mean as the
    specification words them: Likert answers 1 to 5 stand for 30, 45,
    60, 75 and 90, the reactions sell, wait and buy_more for 30, 60 and
    90, and any other value for the neutral 60. *)
Definition likert_score (v : Z) : Q :=
  match v with
  | 1%Z => 30
  | 2%Z => 45
  | 3%Z => 60
  | 4%Z => 75
  | 5%Z => 90
  | _ => 60
  end.

Definition reaction_score (s : string) : Q :=
  if String.eqb s "sell" then 30
  else if String.eqb s "wait" then 60
  else if String.eqb s "buy_more" then 90
  else 60.

(** The stated scores of the components that were supplied: risk
    attitude and investment knowledge when present and not 0, drawdown
    reaction when present and not empty. *)
Definition stated_scores (data : InvestorInput) : list Q :=
  (match risk_attitude data with
   | Some v => if (v =? 0)%Z then [] else [likert_score v]
   | None => []
   end
   ++ match investment_knowledge data with
      | Some v => if (v =? 0)%Z then [] else [likert_score v]
      | None => []
      end
   ++ match drawdown_reaction data with
      | Some EmptyString => []
      | Some s => [reaction_score s]
      | None => []
      end)%list.

(** The arithmetic mean of a list of rationals. *)
Definition Qmean (l : list Q) : Q :=
  (fold_right Qplus 0 l / inject_Z (Z.of_nat (List.length l)))%Q.

(** * Properties *)

(** ** Inversion of the engine *)

Lemma bind_ok {A B : Type} (m : Result A) (k : A -> Result B) (b : B) :
  bind m k = Ok b -> exists a, m = Ok a /\ k a = Ok b.
Proof.
  destruct m as [a|e]; simpl; intro H.
  - exists a. split; [reflexivity | exact H].
  - discriminate H.
Qed.

(** The engine returns exactly when the two divisions do. *)
Lemma classify_investor_sub_scores (data : InvestorInput) :
  returned (classify_investor data) = None <->
  returned (sub_scores data) = None.
Proof.
  unfold classify_investor, sub_scores.
  destruct (emi_ratio data) as [q|x]; simpl; [|tauto].
  destruct (emergency_ratio data) as [q'|x]; simpl; [|tauto].
  split; discriminate.
Qed.

(** What a returned classification is made of. *)
Lemma classify_investor_inv (data : InvestorInput) (r : Classification) :
  classify_investor data = Ok r ->
  exists s,
    sub_scores data = Ok s
    /\ score r = normalize (raw_score s)
    /\ profile r = profile_of (score r)
    /\ recommendation r = recommendation_of (score r)
    /\ factors r =
         ([ weighted_factor k_age (age_sub s) (age_sub s);
           weighted_factor k_financial_stability
                           (round2 (financial_sub s)) (financial_sub s);
           weighted_factor k_risk_tolerance
                           (round2 (risk_sub s)) (risk_sub s);
           weighted_factor k_time_horizon (time_sub s) (time_sub s);
           weighted_factor k_return_expectation
                           (return_sub s) (return_sub s) ]
         ++ optional_factor "insurance" (insurance_sub data)
         ++ optional_factor "dependants"
                            (get_dependants_score (dependants data)))%list.
Proof.
  unfold classify_investor, sub_scores. intro H.
  apply bind_ok in H. destruct H as [q [Hq H]].
  apply bind_ok in H. destruct H as [q' [Hq' H]].
  rewrite Hq, Hq'. simpl.
  injection H as <-.
  eexists. split; [reflexivity|].
  repeat split.
Qed.

(** ** Every sub-score is an entry of its table *)

Ltac pick_entry l :=
  lazymatch l with
  | ?z :: ?l' =>
      first [ exists z; split; [simpl; tauto | vm_compute; reflexivity]
            | pick_entry l' ]
  end.

Ltac split_ifs :=
  repeat match goal with
         | |- context [if ?c then _ else _] => destruct c
         end.

(** Two float literals that differ: compare them with [=?]. *)
Ltac float_neq :=
  let E := fresh in
  intro E;
  match type of E with
  | ?x = ?y => apply (f_equal (fun z => (z =? y)%float)) in E
  end;
  vm_compute in E; discriminate E.

Lemma get_age_score_table (x : Z) :
  exists a, In a age_table /\ get_age_score x = float_of_Z a.
Proof.
  unfold get_age_score. split_ifs;
    let l := eval unfold age_table in age_table in pick_entry l.
Qed.

Lemma get_income_score_table (x : Z) :
  exists i, In i income_table
            /\ get_income_score_from_threshold x = float_of_Z i.
Proof.
  unfold get_income_score_from_threshold. split_ifs;
    let l := eval unfold income_table in income_table in pick_entry l.
Qed.

Lemma get_emergency_score_table (x : float) :
  exists e, In e emergency_table
            /\ get_emergency_score_from_ratio x = float_of_Z e.
Proof.
  unfold get_emergency_score_from_ratio. split_ifs;
    let l := eval unfold emergency_table in emergency_table in pick_entry l.
Qed.

Lemma get_debt_score_table (x : float) :
  exists d, In d debt_table /\ get_debt_score_from_ratio x = float_of_Z d.
Proof.
  unfold get_debt_score_from_ratio. split_ifs;
    let l := eval unfold debt_table in debt_table in pick_entry l.
Qed.

Lemma get_time_horizon_score_table (x : Z) :
  exists t, In t time_table /\ get_time_horizon_score x = float_of_Z t.
Proof.
  unfold get_time_horizon_score. split_ifs;
    let l := eval unfold time_table in time_table in pick_entry l.
Qed.

Lemma get_return_expectation_score_table (x : float) :
  exists t, In t return_table
            /\ get_return_expectation_score x = float_of_Z t.
Proof.
  unfold get_return_expectation_score. split_ifs;
    let l := eval unfold return_table in return_table in pick_entry l.
Qed.

Lemma likert_get_cases (v : Z) :
  In (likert_get v) [30.0; 45.0; 60.0; 75.0; 90.0].
Proof.
  destruct v as [|p|p]; try (simpl; tauto).
  do 3 (try destruct p as [p|p|]); simpl; tauto.
Qed.

Lemma dd_map_get_cases (s : string) :
  In (dd_map_get s) [30.0; 60.0; 90.0].
Proof.
  unfold dd_map_get. split_ifs; simpl; tauto.
Qed.

Lemma get_risk_tolerance_score_cases (s : string) :
  In (get_risk_tolerance_score s) [30.0; 60.0; 90.0].
Proof.
  unfold get_risk_tolerance_score. split_ifs; simpl; tauto.
Qed.

Lemma risk_subs_shape (data : InvestorInput) :
  exists la lk ld,
    risk_subs data = (la ++ lk ++ ld)%list
    /\ (la = [] \/ exists v, la = [likert_get v])
    /\ (lk = [] \/ exists v, lk = [likert_get v])
    /\ (ld = [] \/ exists s, ld = [dd_map_get s]).
Proof.
  unfold risk_subs. do 3 eexists. split; [reflexivity|].
  split; [|split].
  - destruct (int_truthy (risk_attitude data)); eauto.
  - destruct (int_truthy (investment_knowledge data)); eauto.
  - destruct (drawdown_reaction data) as [dd|]; [|auto].
    destruct (str_truthy (Some dd)); eauto.
Qed.

Ltac risk_entry :=
  let l := eval unfold risk_table in risk_table in pick_entry l.

Lemma from_risk_subs_table (l : list float) :
  (exists la lk ld,
      l = (la ++ lk ++ ld)%list
      /\ (la = [] \/ exists v, la = [likert_get v])
      /\ (lk = [] \/ exists v, lk = [likert_get v])
      /\ (ld = [] \/ exists s, ld = [dd_map_get s])) ->
  exists r, In r risk_table /\ mean_or_default l = float_of_Z r / 10.
Proof.
  intros (la & lk & ld & -> & Ha & Hk & Hd).
  destruct Ha as [-> | [va ->]]; destruct Hk as [-> | [vk ->]];
    destruct Hd as [-> | [sd ->]]; cbn [app];
    repeat match goal with
      | |- context [likert_get ?v] =>
          let H := fresh in
          pose proof (likert_get_cases v) as H; simpl in H;
          generalize dependent (likert_get v); intros
      | |- context [dd_map_get ?v] =>
          let H := fresh in
          pose proof (dd_map_get_cases v) as H; simpl in H;
          generalize dependent (dd_map_get v); intros
      end;
    repeat match goal with
      | H : _ \/ _ |- _ => destruct H as [H | H]
      | H : False |- _ => destruct H
      end; subst; risk_entry.
Qed.

Lemma risk_tolerance_sub_table (data : InvestorInput) :
  exists r, In r risk_table
            /\ risk_tolerance_sub data = float_of_Z r / 10.
Proof.
  unfold risk_tolerance_sub.
  pose proof (from_risk_subs_table _ (risk_subs_shape data)) as Hsubs.
  destruct (risk_tolerance data) as [rt|]; [|exact Hsubs].
  destruct (str_truthy (Some rt)); [|exact Hsubs].
  pose proof (get_risk_tolerance_score_cases rt) as H. simpl in H.
  generalize dependent (get_risk_tolerance_score rt). intros.
  repeat match goal with
    | H : _ \/ _ |- _ => destruct H as [H | H]
    | H : False |- _ => destruct H
    end; subst; risk_entry.
Qed.

Lemma sub_scores_table (data : InvestorInput) (s : SubScores) :
  sub_scores data = Ok s ->
  exists a d i e r t x,
    In a age_table /\ In d debt_table /\ In i income_table
    /\ In e emergency_table /\ In r risk_table /\ In t time_table
    /\ In x return_table
    /\ s = table_scores a d i e r t x.
Proof.
  unfold sub_scores. intro H.
  apply bind_ok in H. destruct H as [q [_ H]].
  apply bind_ok in H. destruct H as [q' [_ H]].
  injection H as <-.
  destruct (get_age_score_table (int_or (age data) 30)) as [a [Ha Ea]].
  destruct (get_debt_score_table q) as [d [Hd Ed]].
  destruct (get_income_score_table (int_or (monthly_income data) 1))
    as [i [Hi Ei]].
  destruct (get_emergency_score_table q') as [e [He Ee]].
  destruct (risk_tolerance_sub_table data) as [r [Hr Er]].
  destruct (get_time_horizon_score_table (int_or (time_horizon data) 5))
    as [t [Ht Et]].
  destruct (get_return_expectation_score_table
              (float_or (return_expectation data) 10.0)) as [x [Hx Ex]].
  exists a, d, i, e, r, t, x.
  repeat (split; [assumption|]).
  unfold table_scores. rewrite Ea, Ed, Ei, Ee, Er, Et, Ex. reflexivity.
Qed.

(** ** The float arithmetic is exact on the tables *)

Lemma tabulate_ext {B : Type}
      (f g : Z -> Z -> Z -> Z -> Z -> Z -> Z -> B) :
  tabulate f = tabulate g ->
  forall a d i e r t x,
    In a age_table -> In d debt_table -> In i income_table ->
    In e emergency_table -> In r risk_table -> In t time_table ->
    In x return_table ->
    f a d i e r t x = g a d i e r t x.
Proof.
  unfold tabulate. intros H a d i e r t x Ha Hd Hi He Hr Ht Hx.
  apply (ext_in_map H) in Ha.
  apply (ext_in_map Ha) in Hd.
  apply (ext_in_map Hd) in Hi.
  apply (ext_in_map Hi) in He.
  apply (ext_in_map He) in Hr.
  apply (ext_in_map Hr) in Ht.
  apply (ext_in_map Ht) in Hx.
  exact Hx.
Qed.

(** On every combination of table entries the five float products
    and their sum come out as the float nearest to the exact
    composite. *)
Lemma table_raw_exact : tabulate table_raw = tabulate table_exact.
Proof. vm_compute. reflexivity. Qed.

(** Rounding to two decimals leaves a float that is nearest to a whole
    number of hundredths as it is, on the grid of reachable scores. *)
Lemma normalize_grid :
  List.map (fun n => normalize (of_cents n)) cents_grid
  = List.map of_cents cents_grid.
Proof. vm_compute. reflexivity. Qed.

(** On the grid, dividing the float of the hundredths by 100 gives the
    float nearest to the decimal. *)
Lemma of_cents_grid :
  List.map of_cents cents_grid
  = List.map (fun n => nearest_float (n # 100)) cents_grid.
Proof. vm_compute. reflexivity. Qed.

Lemma grid_ok_grid :
  forallb (fun n => grid_ok (of_cents n)) cents_grid = true.
Proof. vm_compute. reflexivity. Qed.

Lemma map_fix {A : Type} (f : A -> A) (l : list A) :
  List.map f l = l -> forall a, In a l -> f a = a.
Proof.
  intros H a Ha.
  apply (ext_in_map (f := f) (g := fun x => x) (l := l)); [|exact Ha].
  rewrite map_id. exact H.
Qed.

Lemma Zval_score_tables :
  List.map (fun z => Zval (float_of_Z z))
           (age_table ++ debt_table ++ income_table ++ emergency_table
            ++ time_table ++ return_table)%list
  = (age_table ++ debt_table ++ income_table ++ emergency_table
     ++ time_table ++ return_table)%list.
Proof. vm_compute. reflexivity. Qed.

Lemma Zval_risk_table :
  List.map (fun z => Zval (10 * (float_of_Z z / 10))) risk_table
  = risk_table.
Proof. vm_compute. reflexivity. Qed.

Lemma composite_cents_table (a d i e r t x : Z) :
  In a age_table -> In d debt_table -> In i income_table ->
  In e emergency_table -> In r risk_table -> In t time_table ->
  In x return_table ->
  composite_cents (table_scores a d i e r t x) = table_cents a d i e r t x.
Proof.
  intros Ha Hd Hi He Hr Ht Hx.
  unfold composite_cents, table_cents, table_scores; simpl.
  pose proof (map_fix _ _ Zval_score_tables) as Hz.
  pose proof (map_fix _ _ Zval_risk_table) as Hzr.
  rewrite (Hz a), (Hz d), (Hz i), (Hz e), (Hz t), (Hz x), (Hzr r);
    try assumption; repeat rewrite in_app_iff; tauto.
Qed.

Lemma table_cents_grid (a d i e r t x : Z) :
  In a age_table -> In d debt_table -> In i income_table ->
  In e emergency_table -> In r risk_table -> In t time_table ->
  In x return_table ->
  In (table_cents a d i e r t x) cents_grid.
Proof.
  intros Ha Hd Hi He Hr Ht Hx.
  assert (10 <= a <= 90)%Z as Ba by (simpl in Ha; lia).
  assert (30 <= d <= 90)%Z as Bd by (simpl in Hd; lia).
  assert (30 <= i <= 100)%Z as Bi by (simpl in Hi; lia).
  assert (30 <= e <= 90)%Z as Be by (simpl in He; lia).
  assert (exists k, r = 5 * k /\ 60 <= k <= 180)%Z as [k [-> Bk]].
  { exists (r / 5)%Z. simpl in Hr.
    repeat (destruct Hr as [<- | Hr]; [vm_compute; intuition discriminate|]).
    destruct Hr. }
  assert (35 <= t <= 90)%Z as Bt by (simpl in Ht; lia).
  assert (35 <= x <= 90)%Z as Bx by (simpl in Hx; lia).
  clear Ha Hd Hi He Hr Ht Hx.
  unfold cents_grid, table_cents. apply in_map_iff.
  exists (Z.to_nat (5 * a + 2 * (i + e + d) + 2 * k + 3 * t + 2 * x - 525)).
  split.
  - rewrite Z2Nat.id; lia.
  - apply in_seq. lia.
Qed.

(** The returned score is the float nearest to the exact composite,
    which is a whole number of hundredths between 26.25 and 91. *)
Lemma score_exact (data : InvestorInput) (r : Classification) :
  classify_investor data = Ok r ->
  exists s,
    sub_scores data = Ok s
    /\ In (composite_cents s) cents_grid
    /\ raw_score s = of_cents (composite_cents s)
    /\ score r = of_cents (composite_cents s).
Proof.
  intro H. destruct (classify_investor_inv _ _ H) as (s & Hs & Hsc & _).
  exists s. split; [exact Hs|].
  destruct (sub_scores_table _ _ Hs)
    as (a & d & i & e & k & t & x & Ha & Hd & Hi & He & Hk & Ht & Hx & ->).
  rewrite composite_cents_table by assumption.
  pose proof (table_cents_grid _ _ _ _ _ _ _ Ha Hd Hi He Hk Ht Hx) as Hg.
  assert (raw_score (table_scores a d i e k t x)
          = of_cents (table_cents a d i e k t x)) as Hraw
    by exact (tabulate_ext _ _ table_raw_exact _ _ _ _ _ _ _
                           Ha Hd Hi He Hk Ht Hx).
  repeat split; [exact Hg | exact Hraw |].
  rewrite Hsc, Hraw.
  exact (ext_in_map normalize_grid _ Hg).
Qed.

(** Any check that passes on the grid holds of every returned score. *)
Lemma score_grid_ok (data : InvestorInput) (r : Classification) :
  classify_investor data = Ok r -> grid_ok (score r) = true.
Proof.
  intro H. destruct (score_exact _ _ H) as (s & _ & Hg & _ & ->).
  pose proof grid_ok_grid as Hall. rewrite forallb_forall in Hall.
  exact (Hall _ Hg).
Qed.


(** ** The end-to-end example *)

(** C1, as stated, fails: on the example profile the engine returns
    neither the score 64.0 nor the profile Moderate nor the bare
    recommendation string, and the emergency, financial stability and
    risk tolerance sub-scores are not 60, 65 and 50. *)
Lemma example_is_not_64 :
  exists r s,
    classify_investor example_input = Ok r
    /\ sub_scores example_input = Ok s
    /\ score r <> 64.0
    /\ profile r <> "Moderate"
    /\ recommendation r <> "debt > equity > gold"
    /\ emergency_score s <> 60.0
    /\ financial_sub s <> 65.0
    /\ risk_sub s <> 50.0.
Proof.
  do 2 eexists. split; [vm_compute; reflexivity|].
  split; [vm_compute; reflexivity|].
  cbn [score profile recommendation emergency_score risk_sub].
  repeat split; try float_neq; try discriminate.
Qed.

(** C1, amended: on the example profile the engine returns the score
    65.0, the profile Moderate-Aggressive and the recommendation
    "invest in debt > equity > gold"; the sub-scores are age 75, debt
    75 (EMI ratio 12.5), income 60, emergency 50 (ratio 4/6), financial
    stability 185/3 reported as 61.67, risk tolerance 60, time horizon
    65 and return expectation 60, and dependants 75 is listed without
    weight. *)
Theorem example_classification :
  classify_investor example_input =
    Ok {| score := 65.0;
          profile := "Moderate-Aggressive";
          recommendation := "invest in debt > equity > gold";
          factors :=
            [ {| name := "age"; subscore := 75.0;
                 weight := Some 0.25; weighted := Some 18.75 |};
              {| name := "financial_stability"; subscore := 61.67;
                 weight := Some 0.30; weighted := Some 18.5 |};
              {| name := "risk_tolerance"; subscore := 60.0;
                 weight := Some 0.20; weighted := Some 12.0 |};
              {| name := "time_horizon"; subscore := 65.0;
                 weight := Some 0.15; weighted := Some 9.75 |};
              {| name := "return_expectation"; subscore := 60.0;
                 weight := Some 0.10; weighted := Some 6.0 |};
              {| name := "dependants"; subscore := 75.0;
                 weight := None; weighted := None |} ] |}
  /\ emi_ratio example_input = Ok 12.5
  /\ emergency_ratio example_input = Ok (4.0 / 6)
  /\ sub_scores example_input =
       Ok {| age_sub := 75.0; debt_score := 75.0; income_score := 60.0;
             emergency_score := 50.0; risk_sub := 60.0; time_sub := 65.0;
             return_sub := 60.0 |}
  /\ risk_subs example_input = [60.0; 60.0; 60.0].
Proof. repeat split; vm_compute; reflexivity. Qed.

(** ** Recommendation *)




(** ** Score range and profile label *)

(** C5: every returned score lies between 0 and 100, and the profile is
    one of the six names, the one of the bracket that the returned score
    falls in: at most 25, above 25 and at most 40, above 40 and at most
    60, above 60 and at most 75, above 75 and at most 90, above 90. *)
Theorem score_range_and_profile (data : InvestorInput) (r : Classification) :
  classify_investor data = Ok r ->
  (0 <=? score r) = true
  /\ (score r <=? 100) = true
  /\ In (profile r) profile_names
  /\ ((score r <=? 25) = true -> profile r = "Ultra-Conservative")
  /\ ((25 <? score r) = true -> (score r <=? 40) = true ->
      profile r = "Conservative")
  /\ ((40 <? score r) = true -> (score r <=? 60) = true ->
      profile r = "Moderate")
  /\ ((60 <? score r) = true -> (score r <=? 75) = true ->
      profile r = "Moderate-Aggressive")
  /\ ((75 <? score r) = true -> (score r <=? 90) = true ->
      profile r = "Aggressive")
  /\ ((90 <? score r) = true -> profile r = "Ultra-Aggressive").
Proof.
  intro H. pose proof (score_grid_ok _ _ H) as Hok.
  destruct (classify_investor_inv _ _ H) as (_ & _ & _ & -> & _ & _).
  unfold grid_ok in Hok.
  repeat (apply andb_prop in Hok; let H' := fresh "Hk" in
                                  destruct Hok as [Hok H']).
  split; [exact Hok|]. split; [assumption|].
  split.
  { unfold profile_of, profile_names. split_ifs; simpl; tauto. }
  unfold bracket_ok in *.
  repeat match goal with
         | H : (_ && _)%bool = true |- _ =>
             apply andb_prop in H; destruct H
         end.
  repeat split; intros;
    repeat match goal with
           | E : ?c = true, H : context [?c] |- _ => rewrite E in H
           end;
    simpl in *; apply String.eqb_eq; assumption.
Qed.

Lemma score_range_and_profile_witness :
  exists r,
    classify_investor example_input = Ok r
    /\ (0 <=? score r) = true /\ (score r <=? 100) = true
    /\ profile r = "Moderate-Aggressive".
Proof.
  eexists. split; [vm_compute; reflexivity|].
  pose proof (score_range_and_profile example_input _ eq_refl)
    as (H0 & H100 & _ & _ & _ & _ & Hma & _).
  split; [exact H0|]. split; [exact H100|].
  apply Hma; vm_compute; reflexivity.
Defined.

(** ** Debt score at zero income *)

(** The fallback [else 100.0] of [emi_ratio] never runs: the income it
    tests has already been replaced by 1 when it was 0 or [None]. *)
Lemma emi_ratio_fallback_dead (data : InvestorInput) :
  int_or (monthly_income data) 1 <> 0%Z
  /\ emi_ratio data =
       (q <- int_truediv (int_or (monthly_emi data) 0)
                         (int_or (monthly_income data) 1) ;;
        Ok (q * 100))%py.
Proof.
  assert (int_or (monthly_income data) 1 <> 0%Z) as Hnz.
  { unfold int_or. destruct (monthly_income data) as [v|]; [|discriminate].
    destruct (Z.eqb_spec v 0); [discriminate | assumption]. }
  split; [exact Hnz|].
  unfold emi_ratio. apply Z.eqb_neq in Hnz. rewrite Hnz. reflexivity.
Qed.

(** C3 fails on the code: with monthly income 0 and monthly EMI 0 (the
    defaults) the EMI ratio is 0, not 100, and the debt score is 90, not
    30. *)
Theorem zero_income_debt_score :
  monthly_income InvestorInput_default = Some 0%Z
  /\ monthly_emi InvestorInput_default = Some 0%Z
  /\ emi_ratio InvestorInput_default = Ok 0.0
  /\ exists s, sub_scores InvestorInput_default = Ok s
               /\ debt_score s = 90.0
               /\ debt_score s <> 30.0.
Proof.
  repeat split.
  eexists. split; [vm_compute; reflexivity|].
  split; [reflexivity|]. cbn [debt_score]. float_neq.
Qed.

(** ** Advisory factors *)

Lemma optional_factor_info (n : string) (sub : option float) (f : Factor) :
  In f (optional_factor n sub) -> weight f = None /\ weighted f = None.
Proof.
  unfold optional_factor. destruct sub as [s|]; [|intros []].
  destruct (float_truthy s); [|intros []].
  intros [<- | []]. split; reflexivity.
Qed.

(** C4: the insurance amount, the insurance record and the number of
    dependants change neither the score nor the profile nor the
    recommendation (nor whether the engine returns), whatever they are
    set to; and a factor named insurance or dependants carries no weight
    and no weighted contribution. *)
Theorem advisory_fields_inert
        (data : InvestorInput) (a : option Z) (ins : option Insurance)
        (n : option Z) (r : Classification) (f : Factor) :
  Py.map headline (classify_investor (with_insurance_amount a data))
  = Py.map headline (classify_investor (with_insurance_amount None data))
  /\ Py.map headline (classify_investor (with_insurance ins data))
     = Py.map headline (classify_investor (with_insurance None data))
  /\ Py.map headline (classify_investor (with_dependants n data))
     = Py.map headline (classify_investor (with_dependants None data))
  /\ (classify_investor data = Ok r ->
      In f (factors r) ->
      name f = "insurance" \/ name f = "dependants" ->
      weight f = None /\ weighted f = None).
Proof.
  split; [|split; [|split]].
  - unfold classify_investor, emi_ratio, emergency_ratio. cbn.
    destruct (int_or (monthly_income data) 1 =? 0)%Z; cbn;
      repeat match goal with
             | |- context [bind ?m _] => destruct m; cbn
             end; reflexivity.
  - unfold classify_investor, emi_ratio, emergency_ratio. cbn.
    destruct (int_or (monthly_income data) 1 =? 0)%Z; cbn;
      repeat match goal with
             | |- context [bind ?m _] => destruct m; cbn
             end; reflexivity.
  - unfold classify_investor, emi_ratio, emergency_ratio. cbn.
    destruct (int_or (monthly_income data) 1 =? 0)%Z; cbn;
      repeat match goal with
             | |- context [bind ?m _] => destruct m; cbn
             end; reflexivity.
  - intros H Hin Hname.
    destruct (classify_investor_inv _ _ H) as (s & _ & _ & _ & _ & Hf).
    rewrite Hf in Hin. rewrite !in_app_iff in Hin.
    destruct Hin as [Hin | [Hin | Hin]];
      [| exact (optional_factor_info _ _ _ Hin)
       | exact (optional_factor_info _ _ _ Hin)].
    simpl in Hin.
    repeat (destruct Hin as [<- | Hin];
            [destruct Hname as [E | E]; discriminate E|]).
    destruct Hin.
Qed.

Lemma advisory_fields_inert_witness :
  exists r f,
    classify_investor example_input = Ok r
    /\ In f (factors r) /\ name f = "dependants"
    /\ weight f = None /\ weighted f = None.
Proof.
  exists {| score := 65.0;
            profile := "Moderate-Aggressive";
            recommendation := "invest in debt > equity > gold";
            factors :=
              [ weighted_factor k_age 75.0 75.0;
                weighted_factor k_financial_stability 61.67 (185 / 3);
                weighted_factor k_risk_tolerance 60.0 60.0;
                weighted_factor k_time_horizon 65.0 65.0;
                weighted_factor k_return_expectation 60.0 60.0;
                info_factor "dependants" 75.0 ] |}.
  exists (info_factor "dependants" 75.0).
  split; [vm_compute; reflexivity|].
  split; [simpl; tauto|]. split; [reflexivity|].
  refine (proj2 (proj2 (proj2
            (advisory_fields_inert example_input None None None _ _))) _ _ _).
  - vm_compute; reflexivity.
  - simpl; tauto.
  - right; reflexivity.
Defined.

(** ** Emergency-fund ratio *)

(** The emergency ratio of [back.py], case by case: amount / (6 *
    expenses) when the amount is present and the expenses are present
    and positive; otherwise months / 6 when the months are present;
    otherwise 0; and it is this ratio that the emergency score is looked
    up with. *)
Theorem emergency_ratio_cases (data : InvestorInput) :
  (forall amount expenses,
      emergency_fund_amount data = Some amount ->
      monthly_expenses data = Some expenses ->
      (0 < expenses)%Z ->
      emergency_ratio data = int_truediv amount (6 * expenses))
  /\ (forall months,
         emergency_fund_amount data = None
         \/ monthly_expenses data = None
         \/ (exists expenses, monthly_expenses data = Some expenses
                              /\ (expenses <= 0)%Z) ->
         emergency_fund_months data = Some months ->
         emergency_ratio data = Ok (months / 6))
  /\ (emergency_fund_amount data = None
      \/ monthly_expenses data = None
      \/ (exists expenses, monthly_expenses data = Some expenses
                           /\ (expenses <= 0)%Z) ->
      emergency_fund_months data = None ->
      emergency_ratio data = Ok 0.0)
  /\ (forall s, sub_scores data = Ok s ->
                exists q, emergency_ratio data = Ok q
                          /\ emergency_score s
                             = get_emergency_score_from_ratio q).
Proof.
  assert (forall x, monthly_expenses data = Some x -> (x <= 0)%Z ->
                    (0 <? int_or (monthly_expenses data) 0)%Z = false) as Hle.
  { intros x -> Hx. unfold int_or. destruct (Z.eqb_spec x 0); lia. }
  assert (emergency_fund_amount data = None
          \/ monthly_expenses data = None
          \/ (exists expenses, monthly_expenses data = Some expenses
                               /\ (expenses <= 0)%Z) ->
          emergency_ratio data =
            match emergency_fund_months data with
            | Some months => Ok (months / 6)
            | None => Ok 0.0
            end) as Helse.
  { unfold emergency_ratio. intros [E | [E | [x [E Hx]]]].
    - rewrite E. reflexivity.
    - rewrite E. simpl. destruct (emergency_fund_amount data); reflexivity.
    - rewrite (Hle x E Hx). destruct (emergency_fund_amount data); reflexivity. }
  split; [|split; [|split]].
  - intros amount expenses Ea Ee Hpos. unfold emergency_ratio.
    rewrite Ea, Ee. unfold int_or.
    destruct (Z.eqb_spec expenses 0); [lia|].
    destruct (Z.ltb_spec 0 expenses); [reflexivity | lia].
  - intros months Hc Em. rewrite (Helse Hc), Em. reflexivity.
  - intros Hc Em. rewrite (Helse Hc), Em. reflexivity.
  - unfold sub_scores. intros s H.
    apply bind_ok in H. destruct H as [q [_ H]].
    apply bind_ok in H. destruct H as [q' [Hq' H]].
    injection H as <-. exists q'. split; [exact Hq' | reflexivity].
Qed.

Lemma emergency_ratio_cases_witness :
  emergency_ratio amount_input = Ok (2 / 3)
  /\ emergency_ratio example_input = Ok (4 / 6)
  /\ emergency_ratio InvestorInput_default = Ok 0.0
  /\ exists s q, sub_scores amount_input = Ok s
                 /\ emergency_ratio amount_input = Ok q
                 /\ emergency_score s = get_emergency_score_from_ratio q.
Proof.
  split; [|split; [|split]].
  - exact (proj1 (emergency_ratio_cases amount_input)
                 300000%Z 75000%Z eq_refl eq_refl eq_refl).
  - exact (proj1 (proj2 (emergency_ratio_cases example_input))
                 4.0 (or_introl eq_refl) eq_refl).
  - exact (proj1 (proj2 (proj2 (emergency_ratio_cases InvestorInput_default)))
                 (or_introl eq_refl) eq_refl).
  - exists {| age_sub := 75.0; debt_score := 75.0; income_score := 60.0;
              emergency_score := 50.0; risk_sub := 50.0; time_sub := 65.0;
              return_sub := 60.0 |}.
    assert (sub_scores amount_input =
              Ok {| age_sub := 75.0; debt_score := 75.0;
                    income_score := 60.0; emergency_score := 50.0;
                    risk_sub := 50.0; time_sub := 65.0;
                    return_sub := 60.0 |}) as Hs
        by (vm_compute; reflexivity).
    destruct (proj2 (proj2 (proj2 (emergency_ratio_cases amount_input)))
                    _ Hs) as [q [Hq Hsc]].
    exists q. split; [exact Hs|]. split; [exact Hq | exact Hsc].
Defined.

(** The copy of the engine in [app.py] computes the ratio from the
    months alone: on a profile that gives an amount it differs. *)
Lemma app_emergency_ratio_differs :
  emergency_ratio amount_input = Ok (2 / 3)
  /\ App.emergency_ratio amount_input = 0.0.
Proof. split; vm_compute; reflexivity. Qed.

(** C6, as stated, fails for the copy of the engine in [app.py]: on a
    profile with an emergency-fund amount of 300000 and monthly expenses
    of 75000 the ratio is not 300000 / (6 * 75000) but 0.0, and the
    score is 61.0 where [back.py] returns 63.0. *)
Lemma app_ratio_ignores_amount :
  emergency_fund_amount amount_input = Some 300000%Z
  /\ monthly_expenses amount_input = Some 75000%Z
  /\ (0 < 75000)%Z
  /\ int_truediv 300000 (6 * 75000) = Ok (2 / 3)
  /\ App.emergency_ratio amount_input = 0.0
  /\ App.emergency_ratio amount_input <> 2 / 3
  /\ exists ra rb,
       App.classify_investor amount_input = Ok ra
       /\ classify_investor amount_input = Ok rb
       /\ App.score ra = 61.0
       /\ score rb = 63.0.
Proof.
  split; [reflexivity|]. split; [reflexivity|]. split; [lia|].
  split; [vm_compute; reflexivity|]. split; [vm_compute; reflexivity|].
  split; [vm_compute; float_neq|].
  do 2 eexists. split; [vm_compute; reflexivity|].
  split; [vm_compute; reflexivity|]. split; reflexivity.
Qed.

(** C6, amended: in [back.py] the ratio is amount / (6 * expenses) when
    the amount is present and the expenses are present and positive,
    otherwise months / 6 when the months are present, otherwise 0, and
    it is this ratio that the emergency score is looked up with; in
    [app.py] the ratio is months / 6 when the months are present and not
    zero and 0.0 otherwise, it depends on no other field, and it is this
    ratio that the emergency score inside financial_stability is looked
    up with. *)
Theorem emergency_ratio_by_engine (data : InvestorInput) :
  (forall amount expenses,
      emergency_fund_amount data = Some amount ->
      monthly_expenses data = Some expenses ->
      (0 < expenses)%Z ->
      emergency_ratio data = int_truediv amount (6 * expenses))
  /\ (forall months,
         emergency_fund_amount data = None
         \/ monthly_expenses data = None
         \/ (exists expenses, monthly_expenses data = Some expenses
                              /\ (expenses <= 0)%Z) ->
         emergency_fund_months data = Some months ->
         emergency_ratio data = Ok (months / 6))
  /\ (emergency_fund_amount data = None
      \/ monthly_expenses data = None
      \/ (exists expenses, monthly_expenses data = Some expenses
                           /\ (expenses <= 0)%Z) ->
      emergency_fund_months data = None ->
      emergency_ratio data = Ok 0.0)
  /\ (forall s, sub_scores data = Ok s ->
                exists q, emergency_ratio data = Ok q
                          /\ emergency_score s
                             = get_emergency_score_from_ratio q)
  /\ (forall months,
         emergency_fund_months data = Some months ->
         float_truthy months = true ->
         App.emergency_ratio data = months / 6)
  /\ (forall months,
         emergency_fund_months data = Some months ->
         float_truthy months = false ->
         App.emergency_ratio data = 0.0)
  /\ (emergency_fund_months data = None -> App.emergency_ratio data = 0.0)
  /\ (forall other,
         emergency_fund_months other = emergency_fund_months data ->
         App.emergency_ratio other = App.emergency_ratio data)
  /\ (forall q r,
         emi_ratio data = Ok q ->
         App.classify_investor data = Ok r ->
         nth_error (App.factors r) 1
         = Some {| App.name := "financial_stability";
                   App.subscore :=
                     round2
                       ((get_income_score_from_threshold
                           (int_or (monthly_income data) 1)
                         + get_emergency_score_from_ratio
                             (App.emergency_ratio data)
                         + get_debt_score_from_ratio q) / 3) |}).
Proof.
  destruct (emergency_ratio_cases data) as (H1 & H2 & H3 & H4).
  do 4 (split; [assumption|]).
  unfold App.emergency_ratio.
  split; [intros months -> ->; reflexivity|].
  split; [intros months -> ->; reflexivity|].
  split; [intros ->; reflexivity|].
  split; [intros other ->; reflexivity|].
  intros q r Hq Hr. unfold App.classify_investor in Hr.
  rewrite Hq in Hr. cbn [bind] in Hr. injection Hr as <-. reflexivity.
Qed.

Lemma emergency_ratio_by_engine_witness :
  emergency_ratio amount_input = Ok (2 / 3)
  /\ emergency_ratio example_input = Ok (4 / 6)
  /\ emergency_ratio InvestorInput_default = Ok 0.0
  /\ App.emergency_ratio example_input = 4 / 6
  /\ App.emergency_ratio amount_input = 0.0
  /\ exists r, App.classify_investor example_input = Ok r
               /\ nth_error (App.factors r) 1
                  = Some {| App.name := "financial_stability";
                            App.subscore := 61.67 |}.
Proof.
  destruct (emergency_ratio_by_engine amount_input)
    as (Ha & _ & _ & _ & _ & _ & Hnone & _).
  destruct (emergency_ratio_by_engine example_input)
    as (_ & Hm & _ & _ & Happ & _ & _ & _ & Hfed).
  destruct (emergency_ratio_by_engine InvestorInput_default)
    as (_ & _ & Hz & _).
  split; [exact (Ha 300000%Z 75000%Z eq_refl eq_refl eq_refl)|].
  split; [exact (Hm 4.0 (or_introl eq_refl) eq_refl)|].
  split; [exact (Hz (or_introl eq_refl) eq_refl)|].
  split; [exact (Happ 4.0 eq_refl eq_refl)|].
  split; [exact (Hnone eq_refl)|].
  assert (exists r, App.classify_investor example_input = Ok r) as [r Hr]
    by (eexists; vm_compute; reflexivity).
  exists r. split; [exact Hr|].
  rewrite (Hfed 12.5 r ltac:(vm_compute; reflexivity) Hr).
  vm_compute. reflexivity.
Defined.

(** ** Risk tolerance *)

(** The list that the three [if]s build holds the scores of the
    supplied components, in order. *)
Lemma risk_subs_supplied (data : InvestorInput) :
  risk_subs data = supplied_scores data.
Proof.
  unfold risk_subs, supplied_scores, int_truthy, int_or.
  destruct (risk_attitude data) as [a|];
    destruct (investment_knowledge data) as [k|];
    destruct (drawdown_reaction data) as [[|c dd]|]; simpl;
    repeat match goal with
           | |- context [(?v =? 0)%Z] => destruct (v =? 0)%Z; simpl
           end; reflexivity.
Qed.

(** On the lists that can arise the float mean is the exact mean. *)
Lemma mean_exact (l : list float) :
  (exists la lk ld,
      l = (la ++ lk ++ ld)%list
      /\ (la = [] \/ exists v, la = [likert_get v])
      /\ (lk = [] \/ exists v, lk = [likert_get v])
      /\ (ld = [] \/ exists s, ld = [dd_map_get s])) ->
  l <> [] ->
  (Qval (Py.sum l / Py.len l) == exact_mean l)%Q.
Proof.
  intros (la & lk & ld & -> & Ha & Hk & Hd).
  destruct Ha as [-> | [va ->]]; destruct Hk as [-> | [vk ->]];
    destruct Hd as [-> | [sd ->]]; cbn [app]; intro Hne;
    try (exfalso; apply Hne; reflexivity); clear Hne;
    repeat match goal with
      | |- context [likert_get ?v] =>
          let H := fresh in
          pose proof (likert_get_cases v) as H; simpl in H;
          generalize dependent (likert_get v); intros
      | |- context [dd_map_get ?v] =>
          let H := fresh in
          pose proof (dd_map_get_cases v) as H; simpl in H;
          generalize dependent (dd_map_get v); intros
      end;
    repeat match goal with
      | H : _ \/ _ |- _ => destruct H as [H | H]
      | H : False |- _ => destruct H
      end; subst; vm_compute; reflexivity.
Qed.

Lemma likert_score_exact (v : Z) : (Qval (likert_get v) == likert_score v)%Q.
Proof.
  destruct v as [|p|p]; try (vm_compute; reflexivity).
  do 3 (try destruct p as [p|p|]); vm_compute; reflexivity.
Qed.

Lemma reaction_score_exact (s : string) :
  (Qval (dd_map_get s) == reaction_score s)%Q.
Proof.
  unfold dd_map_get, reaction_score. split_ifs; vm_compute; reflexivity.
Qed.

(** The scores the engine collects are the stated ones. *)
Lemma supplied_scores_stated (data : InvestorInput) :
  Forall2 (fun x q => Qval x == q)%Q (supplied_scores data)
          (stated_scores data).
Proof.
  unfold supplied_scores, stated_scores.
  destruct (risk_attitude data) as [a|];
    destruct (investment_knowledge data) as [k|];
    destruct (drawdown_reaction data) as [[|c dd]|]; simpl;
    repeat match goal with
           | |- context [(?v =? 0)%Z] => destruct (v =? 0)%Z; simpl
           end;
    repeat (constructor;
            try apply likert_score_exact; try apply reaction_score_exact).
Qed.

Lemma exact_mean_stated (l : list float) (ql : list Q) :
  Forall2 (fun x q => Qval x == q)%Q l ql ->
  (exact_mean l == Qmean ql)%Q.
Proof.
  intro H. unfold exact_mean, Qmean.
  rewrite (Forall2_length H).
  assert (fold_right (fun x acc => Qval x + acc) 0 l
          == fold_right Qplus 0 ql)%Q as Hs.
  { induction H as [|x q l' ql' Hx _ IH]; simpl; [reflexivity|].
    rewrite Hx, IH. reflexivity. }
  rewrite Hs. reflexivity.
Qed.

(** C7: without a risk-tolerance label, the sub-score is 60.0 when risk
    attitude, investment knowledge and drawdown reaction are all absent
    or falsy; otherwise it is the mean of the scores of the supplied
    components, the float mean is their exact arithmetic mean, and the
    scores are the stated ones: 30, 45, 60, 75, 90 for the Likert
    answers 1 to 5, and 30, 60, 90 for sell, wait, buy_more. *)
Theorem risk_tolerance_fallback (data : InvestorInput) :
  str_truthy (risk_tolerance data) = false ->
  (int_truthy (risk_attitude data) = false ->
   int_truthy (investment_knowledge data) = false ->
   str_truthy (drawdown_reaction data) = false ->
   risk_tolerance_sub data = 60.0)
  /\ (supplied_scores data <> [] ->
      risk_tolerance_sub data
      = Py.sum (supplied_scores data) / Py.len (supplied_scores data)
      /\ (Qval (risk_tolerance_sub data)
          == exact_mean (supplied_scores data))%Q)
  /\ Forall2 (fun x q => Qval x == q)%Q (supplied_scores data)
             (stated_scores data)
  /\ (stated_scores data <> [] ->
      (Qval (risk_tolerance_sub data) == Qmean (stated_scores data))%Q).
Proof.
  intro Hrt.
  assert (risk_tolerance_sub data = mean_or_default (risk_subs data)) as E.
  { unfold risk_tolerance_sub. destruct (risk_tolerance data) as [rt|];
      [rewrite Hrt|]; reflexivity. }
  assert (supplied_scores data <> [] ->
      risk_tolerance_sub data
      = Py.sum (supplied_scores data) / Py.len (supplied_scores data)
      /\ (Qval (risk_tolerance_sub data)
          == exact_mean (supplied_scores data))%Q) as Hmean.
  { intro Hne. rewrite E.
    pose proof (risk_subs_shape data) as Hshape.
    rewrite risk_subs_supplied in *.
    assert (mean_or_default (supplied_scores data)
            = Py.sum (supplied_scores data) / Py.len (supplied_scores data))
      as Em.
    { destruct (supplied_scores data); [contradiction | reflexivity]. }
    rewrite Em. split; [reflexivity|].
    exact (mean_exact _ Hshape Hne). }
  pose proof (supplied_scores_stated data) as Hst.
  split; [|split; [exact Hmean | split; [exact Hst|]]].
  - intros Ha Hk Hd. rewrite E. unfold risk_subs. rewrite Ha, Hk.
    destruct (drawdown_reaction data) as [dd|]; [rewrite Hd|]; reflexivity.
  - intro Hne.
    assert (supplied_scores data <> []) as Hne'.
    { intro E0. apply Hne. rewrite E0 in Hst.
      apply Forall2_length in Hst.
      destruct (stated_scores data); [reflexivity | discriminate Hst]. }
    rewrite (proj2 (Hmean Hne')).
    exact (exact_mean_stated _ _ Hst).
Qed.

Lemma risk_tolerance_fallback_witness :
  risk_tolerance_sub InvestorInput_default = 60.0
  /\ risk_tolerance_sub amount_input = (30.0 + 90.0 + 30.0) / 3
  /\ (Qval (risk_tolerance_sub amount_input) == 50)%Q
  /\ (Qval (risk_tolerance_sub amount_input) == (30 + 90 + 30) / 3)%Q.
Proof.
  split.
  - exact (proj1 (risk_tolerance_fallback InvestorInput_default eq_refl)
                 eq_refl eq_refl eq_refl).
  - assert (supplied_scores amount_input <> []) as Hne by discriminate.
    assert (stated_scores amount_input <> []) as Hne' by discriminate.
    destruct (risk_tolerance_fallback amount_input eq_refl)
      as (_ & Hm & _ & Hs).
    destruct (Hm Hne) as [Hf Hq].
    split; [rewrite Hf; vm_compute; reflexivity|].
    split; [rewrite Hq; vm_compute; reflexivity|].
    rewrite (Hs Hne'). vm_compute. reflexivity.
Defined.

(** C8: a risk attitude of 0, and likewise an investment knowledge of
    0, gives the classification that the absent field gives. *)
Theorem zero_likert_as_absent (data : InvestorInput) :
  classify_investor (with_risk_attitude (Some 0%Z) data)
  = classify_investor (with_risk_attitude None data)
  /\ classify_investor (with_investment_knowledge (Some 0%Z) data)
     = classify_investor (with_investment_knowledge None data).
Proof. split; reflexivity. Qed.

(** ** Insurance flags *)

(** C10: with no insurance amount and an insurance record present, the
    sixth factor is an insurance entry without weight, whose sub-score
    is 80.0 when health and life are both true, 50.0 when exactly one
    is, and 30.0 when neither is. *)
Theorem insurance_flags_fallback
        (data : InvestorInput) (ins : Insurance) (r : Classification) :
  insurance_amount data = None ->
  insurance data = Some ins ->
  classify_investor data = Ok r ->
  exists sub,
    nth_error (factors r) 5
    = Some {| name := "insurance"; subscore := sub;
              weight := None; weighted := None |}
    /\ (has_health ins = Some true -> has_life ins = Some true ->
        sub = 80.0)
    /\ (has_health ins = Some true -> has_life ins <> Some true ->
        sub = 50.0)
    /\ (has_health ins <> Some true -> has_life ins = Some true ->
        sub = 50.0)
    /\ (has_health ins <> Some true -> has_life ins <> Some true ->
        sub = 30.0).
Proof.
  intros Ha Hi H.
  destruct (classify_investor_inv _ _ H) as (s & _ & _ & _ & _ & Hf).
  rewrite Hf. unfold insurance_sub. rewrite Ha, Hi. cbn [get_insurance_score].
  destruct ins as [[[|]|] [[|]|]]; cbn;
    eexists; (split; [reflexivity|]);
    repeat split; intros; try reflexivity; try discriminate;
    try (exfalso; auto; fail).
Qed.

Lemma insurance_flags_fallback_witness :
  exists r,
    classify_investor amount_input = Ok r
    /\ nth_error (factors r) 5 = Some (info_factor "insurance" 50.0).
Proof.
  assert (exists r, classify_investor amount_input = Ok r) as [r Hr]
    by (eexists; vm_compute; reflexivity).
  exists r. split; [exact Hr|].
  destruct (insurance_flags_fallback
              amount_input
              {| has_health := Some true; has_life := Some false |}
              r eq_refl eq_refl Hr) as (sub & Hn & _ & H50 & _).
  rewrite Hn, H50; [reflexivity | reflexivity | discriminate].
Defined.

(** ** Weights and linearity *)

Lemma Qval_score_tables (z : Z) :
  In z (age_table ++ debt_table ++ income_table ++ emergency_table
        ++ time_table ++ return_table)%list ->
  (Qval (float_of_Z z) == inject_Z z)%Q.
Proof.
  assert (forallb (fun z => Qeq_bool (Qval (float_of_Z z)) (inject_Z z))
                  (age_table ++ debt_table ++ income_table
                   ++ emergency_table ++ time_table ++ return_table)%list
          = true) as H by (vm_compute; reflexivity).
  rewrite forallb_forall in H. intro Hz.
  apply Qeq_bool_iff. exact (H z Hz).
Qed.

Lemma Qval_risk_table (r : Z) :
  In r risk_table ->
  (Qval (float_of_Z r / 10) == inject_Z r / 10)%Q.
Proof.
  assert (forallb (fun r => Qeq_bool (Qval (float_of_Z r / 10))
                                     (inject_Z r / 10))
                  risk_table = true) as H by (vm_compute; reflexivity).
  rewrite forallb_forall in H. intro Hr.
  apply Qeq_bool_iff. exact (H r Hr).
Qed.

(** The hundredths count what the exact composite is worth. *)
Lemma composite_cents_exact (data : InvestorInput) (s : SubScores) :
  sub_scores data = Ok s ->
  (inject_Z (composite_cents s) == 100 * exact_composite s)%Q.
Proof.
  intro Hs.
  destruct (sub_scores_table _ _ Hs)
    as (a & d & i & e & k & t & x & Ha & Hd & Hi & He & Hk & Ht & Hx & ->).
  rewrite composite_cents_table by assumption.
  unfold exact_composite, exact_sub, exact_weight, table_scores, table_cents.
  cbn [fold_right WEIGHTS_keys age_sub debt_score income_score
       emergency_score risk_sub time_sub return_sub].
  rewrite (Qval_score_tables a), (Qval_score_tables d),
    (Qval_score_tables i), (Qval_score_tables e), (Qval_score_tables t),
    (Qval_score_tables x), (Qval_risk_table k)
    by (try assumption; repeat rewrite in_app_iff; tauto).
  repeat (rewrite inject_Z_plus || rewrite inject_Z_mult).
  field.
Qed.

(** C9, as stated, fails: two profiles whose sub-scores differ in
    financial stability only, by 10/3 as floats hold it, return scores
    that differ by exactly 1.0, which is not the float product of that
    difference and the weight 0.30, nor the exact product of the two
    floats. *)
Lemma financial_shift_not_linear :
  exists r1 r2 s1 s2,
    classify_investor low_income_input = Ok r1
    /\ classify_investor next_income_input = Ok r2
    /\ sub_scores low_income_input = Ok s1
    /\ sub_scores next_income_input = Ok s2
    /\ age_sub s1 = age_sub s2
    /\ risk_sub s1 = risk_sub s2
    /\ time_sub s1 = time_sub s2
    /\ return_sub s1 = return_sub s2
    /\ score r2 - score r1
       <> (financial_sub s2 - financial_sub s1)
          * WEIGHTS k_financial_stability
    /\ ~ (Qval (score r2) - Qval (score r1)
          == (Qval (financial_sub s2) - Qval (financial_sub s1))
             * Qval (WEIGHTS k_financial_stability))%Q.
Proof.
  do 4 eexists.
  do 4 (split; [vm_compute; reflexivity|]).
  do 4 (split; [reflexivity|]).
  split.
  - cbn [score]. vm_compute. float_neq.
  - cbn [score]. vm_compute. discriminate.
Qed.

(** C9, amended: the weights sum to exactly 1.0, as floats and as the
    decimals they are written as; every returned score is the float
    nearest to a whole number of hundredths, the exact composite of the
    sub-scores under the decimal weights; and between two profiles whose
    exact sub-scores differ in one factor only, these hundredths differ
    by exactly the difference of that sub-score times its weight. *)
Theorem composite_linear_in_hundredths
        (data1 data2 : InvestorInput) (s1 s2 : SubScores)
        (r1 r2 : Classification) (k : weight_key) :
  sub_scores data1 = Ok s1 -> sub_scores data2 = Ok s2 ->
  classify_investor data1 = Ok r1 -> classify_investor data2 = Ok r2 ->
  (forall j, j <> k -> exact_sub j s1 == exact_sub j s2)%Q ->
  Py.sum (List.map WEIGHTS WEIGHTS_keys) = 1.0
  /\ (fold_right Qplus 0 (List.map exact_weight WEIGHTS_keys) == 1)%Q
  /\ (forall j, WEIGHTS j = nearest_float (exact_weight j))
  /\ score r1 = of_cents (composite_cents s1)
  /\ score r2 = of_cents (composite_cents s2)
  /\ of_cents (composite_cents s1)
     = nearest_float (composite_cents s1 # 100)
  /\ of_cents (composite_cents s2)
     = nearest_float (composite_cents s2 # 100)
  /\ (inject_Z (composite_cents s1) == 100 * exact_composite s1)%Q
  /\ (inject_Z (composite_cents s2) == 100 * exact_composite s2)%Q
  /\ (inject_Z (composite_cents s2 - composite_cents s1)
      == 100 * (exact_weight k * (exact_sub k s2 - exact_sub k s1)))%Q.
Proof.
  intros Hs1 Hs2 Hr1 Hr2 Hsame.
  destruct (score_exact _ _ Hr1) as (s1' & Hs1' & Hg1 & _ & Hsc1).
  destruct (score_exact _ _ Hr2) as (s2' & Hs2' & Hg2 & _ & Hsc2).
  rewrite Hs1 in Hs1'. injection Hs1' as <-.
  rewrite Hs2 in Hs2'. injection Hs2' as <-.
  pose proof (composite_cents_exact _ _ Hs1) as Hc1.
  pose proof (composite_cents_exact _ _ Hs2) as Hc2.
  split; [vm_compute; reflexivity|].
  split; [vm_compute; reflexivity|].
  split; [intros []; vm_compute; reflexivity|].
  split; [exact Hsc1|]. split; [exact Hsc2|].
  split; [exact (ext_in_map of_cents_grid _ Hg1)|].
  split; [exact (ext_in_map of_cents_grid _ Hg2)|].
  split; [exact Hc1|]. split; [exact Hc2|].
  unfold Z.sub. rewrite inject_Z_plus, inject_Z_opp, Hc1, Hc2.
  unfold exact_composite. cbn [fold_right WEIGHTS_keys].
  destruct k;
    repeat match goal with
           | |- context [exact_sub ?j s1] =>
               lazymatch goal with
               | |- context [exact_sub j s2 - exact_sub j s1] => fail
               | _ => rewrite (Hsame j) by discriminate
               end
           end; ring.
Qed.

Lemma composite_linear_in_hundredths_witness :
  exists r1 r2,
    classify_investor low_income_input = Ok r1
    /\ classify_investor next_income_input = Ok r2
    /\ score r1 = of_cents 5550
    /\ score r2 = of_cents 5650
    /\ (inject_Z (5650 - 5550)
        == 100 * ((30 # 100) * ((40 + 30 + 30) / 3 - (30 + 30 + 30) / 3)))%Q.
Proof.
  assert (exists s, sub_scores low_income_input = Ok s) as [s1 Hs1]
    by (eexists; vm_compute; reflexivity).
  assert (exists s, sub_scores next_income_input = Ok s) as [s2 Hs2]
    by (eexists; vm_compute; reflexivity).
  assert (exists r, classify_investor low_income_input = Ok r) as [r1 Hr1]
    by (eexists; vm_compute; reflexivity).
  assert (exists r, classify_investor next_income_input = Ok r) as [r2 Hr2]
    by (eexists; vm_compute; reflexivity).
  assert (forall j, j <> k_financial_stability ->
                    exact_sub j s1 == exact_sub j s2)%Q as Hsame.
  { vm_compute in Hs1, Hs2.
    injection Hs1 as <-. injection Hs2 as <-.
    intros [] Hj; try (exfalso; apply Hj; reflexivity);
      vm_compute; reflexivity. }
  destruct (composite_linear_in_hundredths
              low_income_input next_income_input s1 s2 r1 r2
              k_financial_stability Hs1 Hs2 Hr1 Hr2 Hsame)
    as (_ & _ & _ & Hsc1 & Hsc2 & _ & _ & _ & _ & Hlin).
  exists r1, r2.
  split; [exact Hr1|]. split; [exact Hr2|].
  vm_compute in Hs1, Hs2.
  injection Hs1 as <-. injection Hs2 as <-.
  split; [exact Hsc1|]. split; [exact Hsc2|].
  vm_compute. reflexivity.
Defined.

(** ** The divisions return on inputs below [2^1023] *)

Lemma Zdigits2_log2 (m : Z) :
  (0 < m)%Z -> Zdigits2 m = (Z.log2 m + 1)%Z.
Proof.
  destruct m as [|p|p]; try lia. intros _.
  induction p as [p IH | p IH |]; simpl in *; try reflexivity.
  - destruct p; simpl in *; lia.
  - destruct p; simpl in *; lia.
Qed.

Lemma Zdigits2_le (m k : Z) :
  (0 <= m)%Z -> (0 <= k)%Z -> (m < 2 ^ k)%Z -> (Zdigits2 m <= k)%Z.
Proof.
  intros Hm Hk Hlt.
  destruct (Z.eq_dec m 0) as [-> | Hnz]; [simpl; lia|].
  rewrite Zdigits2_log2 by lia.
  apply Z.log2_lt_pow2 in Hlt; lia.
Qed.

Lemma Zdigits2_gt (m : Z) : (0 <= m)%Z -> (m < 2 ^ Zdigits2 m)%Z.
Proof.
  intro Hm.
  destruct (Z.eq_dec m 0) as [-> | Hnz]; [simpl; lia|].
  rewrite Zdigits2_log2 by lia.
  pose proof (Z.log2_spec m ltac:(lia)) as [_ H].
  replace (Z.log2 m + 1)%Z with (Z.succ (Z.log2 m)) by lia. exact H.
Qed.

Lemma Zdigits2_nonneg (m : Z) : (0 <= Zdigits2 m)%Z.
Proof. destruct m; simpl; lia. Qed.

Lemma shr_m_shr_1 (mrs : shr_record) :
  (0 <= shr_m mrs)%Z -> shr_m (shr_1 mrs) = (shr_m mrs / 2)%Z.
Proof.
  intro H. rewrite <- Z.div2_div.
  destruct mrs as [[|[p|p|]|p] r s]; try reflexivity.
  simpl in H. lia.
Qed.

Lemma shr_m_iter_pos (p : positive) (mrs : shr_record) :
  (0 <= shr_m mrs)%Z ->
  shr_m (iter_pos shr_1 p mrs) = (shr_m mrs / 2 ^ Zpos p)%Z.
Proof.
  revert mrs. induction p as [p IH | p IH |]; intros mrs Hm; simpl iter_pos.
  - assert (0 < 2 ^ Z.pos p)%Z as Hp by (apply Z.pow_pos_nonneg; lia).
    assert (0 <= shr_m (shr_1 mrs))%Z as H1
        by (rewrite shr_m_shr_1 by assumption; apply Z.div_pos; lia).
    assert (0 <= shr_m (iter_pos shr_1 p (shr_1 mrs)))%Z as H2
        by (rewrite IH by assumption; apply Z.div_pos; lia).
    rewrite IH, IH, shr_m_shr_1 by assumption.
    rewrite !Z.div_div by lia.
    f_equal.
    replace (Z.pos p~1) with (Z.pos p + Z.pos p + 1)%Z by lia.
    rewrite !Z.pow_add_r by lia. change (2 ^ 1)%Z with 2%Z. ring.
  - assert (0 < 2 ^ Z.pos p)%Z as Hp by (apply Z.pow_pos_nonneg; lia).
    assert (0 <= shr_m (iter_pos shr_1 p mrs))%Z as H2
        by (rewrite IH by assumption; apply Z.div_pos; lia).
    rewrite IH, IH by assumption.
    rewrite !Z.div_div by lia.
    f_equal.
    replace (Z.pos p~0) with (Z.pos p + Z.pos p)%Z by lia.
    rewrite !Z.pow_add_r by lia. ring.
  - rewrite shr_m_shr_1 by assumption. reflexivity.
Qed.

Lemma shr_m_of_loc (m : Z) (l : location) :
  shr_m (shr_record_of_loc m l) = m.
Proof. destruct l as [|[| |]]; reflexivity. Qed.

(** What [shr_fexp] does to the mantissa and the exponent. *)
Lemma shr_fexp_spec (m e : Z) (l : location) :
  (0 <= m)%Z ->
  exists n, (0 <= n)%Z
            /\ snd (shr_fexp prec emax m e l) = (e + n)%Z
            /\ (e + n = Z.max e (fexp prec emax (Zdigits2 m + e)))%Z
            /\ shr_m (fst (shr_fexp prec emax m e l)) = (m / 2 ^ n)%Z.
Proof.
  intro Hm. unfold shr_fexp, shr.
  destruct (fexp prec emax (Zdigits2 m + e) - e)%Z as [|p|p] eqn:En.
  - exists 0%Z. simpl. rewrite shr_m_of_loc, Z.div_1_r. lia.
  - exists (Zpos p). simpl fst; simpl snd.
    rewrite shr_m_iter_pos, shr_m_of_loc by (rewrite shr_m_of_loc; lia). lia.
  - exists 0%Z. simpl. rewrite shr_m_of_loc, Z.div_1_r. lia.
Qed.

Lemma fexp_53 (z : Z) : fexp prec emax z = Z.max (z - 53) (-1074).
Proof. reflexivity. Qed.

Lemma round_nearest_even_bounds (m : Z) (l : location) :
  (m <= round_nearest_even m l <= m + 1)%Z.
Proof.
  unfold round_nearest_even.
  destruct l as [|[| |]]; try destruct (Z.even m); lia.
Qed.

(** Rounding a mantissa of at most 1023 binary digits (exponent
    included) never overflows. *)
Lemma binary_round_aux_no_overflow (sx : bool) (mx ex : Z) (lx : location) :
  (0 <= mx)%Z -> (Zdigits2 mx + ex <= 1023)%Z -> (ex <= 970)%Z ->
  forall s, binary_round_aux prec emax sx mx ex lx <> S754_infinity s.
Proof.
  intros Hm Hd He s. unfold binary_round_aux.
  destruct (shr_fexp_spec mx ex lx Hm) as (n & Hn & He1 & Hmax & Hm1).
  destruct (shr_fexp prec emax mx ex lx) as [mrs' e1].
  simpl fst in *; simpl snd in *. subst e1.
  rewrite fexp_53 in Hmax.
  pose proof (Zdigits2_gt mx Hm) as Hgt.
  pose proof (Zdigits2_nonneg mx) as Hdn.
  assert (0 < 2 ^ n)%Z as Hpn by (apply Z.pow_pos_nonneg; lia).
  assert (0 <= shr_m mrs')%Z as Hm1n by (rewrite Hm1; apply Z.div_pos; lia).
  assert (Zdigits2 (shr_m mrs') + (ex + n) <= 1023)%Z as Hd1.
  { destruct (Z.eq_dec (shr_m mrs') 0) as [E0 | Hnz];
      [rewrite E0; simpl; lia|].
    assert (n < Zdigits2 mx)%Z as Hlt.
    { destruct (Z.lt_ge_cases n (Zdigits2 mx)) as [|Hge]; [assumption|].
      exfalso. apply Hnz. rewrite Hm1. apply Z.div_small. split; [lia|].
      apply Z.lt_le_trans with (2 ^ Zdigits2 mx)%Z; [assumption|].
      apply Z.pow_le_mono_r; lia. }
    assert (Zdigits2 (shr_m mrs') <= Zdigits2 mx - n)%Z; [|lia].
    apply Zdigits2_le; [assumption | lia |].
    rewrite Hm1. apply Z.div_lt_upper_bound; [assumption|].
    rewrite <- Z.pow_add_r by lia.
    replace (n + (Zdigits2 mx - n))%Z with (Zdigits2 mx) by lia.
    assumption. }
  set (m1r := round_nearest_even (shr_m mrs') (loc_of_shr_record mrs')).
  pose proof (round_nearest_even_bounds (shr_m mrs')
                                        (loc_of_shr_record mrs')) as Hr.
  fold m1r in Hr.
  assert (0 <= m1r)%Z as Hrn by lia.
  assert (Zdigits2 m1r <= Zdigits2 (shr_m mrs') + 1)%Z as Hdr.
  { apply Zdigits2_le; [assumption | pose proof (Zdigits2_nonneg (shr_m mrs')); lia |].
    pose proof (Zdigits2_gt _ Hm1n) as Hg1.
    pose proof (Zdigits2_nonneg (shr_m mrs')) as Hg0.
    rewrite Z.pow_add_r by lia. change (2 ^ 1)%Z with 2%Z. lia. }
  destruct (shr_fexp_spec m1r (ex + n) loc_Exact Hrn)
    as (n2 & Hn2 & He2 & Hmax2 & _).
  destruct (shr_fexp prec emax m1r (ex + n) loc_Exact) as [mrs'' e2].
  simpl fst in *; simpl snd in *. subst e2.
  rewrite fexp_53 in Hmax2.
  destruct (shr_m mrs''); try discriminate.
  change (emax - prec)%Z with 971%Z.
  destruct (Z.leb_spec (ex + n + n2) 971); [discriminate | lia].
Qed.

(** [int / int] returns unless the divisor is zero or the dividend has
    more than 1023 binary digits. *)
Lemma int_truediv_returns (a b : Z) :
  b <> 0%Z -> (Z.abs a < 2 ^ 1023)%Z ->
  exists q, int_truediv a b = Ok q.
Proof.
  intros Hb Ha. unfold int_truediv.
  apply Z.eqb_neq in Hb. rewrite Hb.
  assert (forall s, SFdiv prec emax (int_to_SF a) (int_to_SF b)
                    <> S754_infinity s) as Hfin.
  { intro s. apply Z.eqb_neq in Hb.
    destruct a as [|pa|pa]; destruct b as [|pb|pb]; try contradiction;
      simpl int_to_SF; unfold SFdiv; try discriminate;
      unfold SFdiv_core_binary;
      rewrite Z.sub_0_r; rewrite !Z.add_0_r;
      set (d1 := Zdigits2 (Z.pos pa));
      set (d2 := Zdigits2 (Z.pos pb));
      set (e' := Z.min (fexp prec emax (d1 - d2)) 0);
      set (m' := match (0 - e')%Z with
                 | Z.pos _ => Z.shiftl (Z.pos pa) (0 - e')
                 | 0%Z => Z.pos pa
                 | Z.neg _ => 0%Z
                 end);
      assert (e' <= 0)%Z as He' by (unfold e'; lia);
      assert (m' = Z.pos pa * 2 ^ (- e'))%Z as Em'
        by (unfold m'; destruct (0 - e')%Z eqn:Es;
            [ replace (- e')%Z with 0%Z by lia; lia
            | rewrite Z.shiftl_mul_pow2 by lia; f_equal; f_equal; lia
            | lia ]);
      clearbody m';
      pose proof (Z_div_mod m' (Z.pos pb) ltac:(lia)) as Hdm;
      destruct (Z.div_eucl m' (Z.pos pb)) as [q r];
      destruct Hdm as [Eq Hr];
      assert (0 < 2 ^ (- e'))%Z as Hp by (apply Z.pow_pos_nonneg; lia);
      assert (d1 <= 1023)%Z as Hd1
        by (apply Zdigits2_le; simpl in Ha; lia);
      pose proof (Zdigits2_gt (Z.pos pa) ltac:(lia)) as Hg; fold d1 in Hg;
      pose proof (Zdigits2_nonneg (Z.pos pa)) as Hd0; fold d1 in Hd0;
      assert (0 <= q)%Z as Hq by nia;
      assert (q <= m')%Z as Hqm by nia;
      (apply binary_round_aux_no_overflow; [assumption | | lia]);
      (assert (Zdigits2 q <= d1 - e')%Z; [|lia]);
      (apply Zdigits2_le; [assumption | lia |]);
      (apply Z.le_lt_trans with m'; [assumption|]);
      rewrite Em';
      replace (d1 - e')%Z with (d1 + - e')%Z by lia;
      rewrite Z.pow_add_r by lia; nia. }
  destruct (SFdiv prec emax (int_to_SF a) (int_to_SF b));
    try (eexists; reflexivity).
  exfalso. exact (Hfin _ eq_refl).
Qed.

(** The engine returns as soon as the EMI and the emergency-fund amount
    have at most 1023 binary digits. *)
Lemma sub_scores_returns (data : InvestorInput) :
  (Z.abs (int_or (monthly_emi data) 0) < 2 ^ 1023)%Z ->
  (forall amount, emergency_fund_amount data = Some amount ->
                  (Z.abs amount < 2 ^ 1023)%Z) ->
  exists s, sub_scores data = Ok s.
Proof.
  intros Hemi Hamount. unfold sub_scores.
  destruct (emi_ratio_fallback_dead data) as [Hnz ->].
  destruct (int_truediv_returns _ _ Hnz Hemi) as [q ->]. cbn [bind].
  assert (exists q', emergency_ratio data = Ok q') as [q' ->].
  { unfold emergency_ratio.
    destruct (emergency_fund_amount data) as [amount|];
      [|destruct (emergency_fund_months data); eexists; reflexivity].
    destruct (Z.ltb_spec 0 (int_or (monthly_expenses data) 0));
      [|destruct (emergency_fund_months data); eexists; reflexivity].
    apply int_truediv_returns; [lia | auto]. }
  cbn [bind]. eexists. reflexivity.
Qed.

Lemma classify_investor_returns (data : InvestorInput) :
  (Z.abs (int_or (monthly_emi data) 0) < 2 ^ 1023)%Z ->
  (forall amount, emergency_fund_amount data = Some amount ->
                  (Z.abs amount < 2 ^ 1023)%Z) ->
  exists r, classify_investor data = Ok r.
Proof.
  intros Hemi Hamount.
  destruct (sub_scores_returns data Hemi Hamount) as [s Hs].
  destruct (classify_investor data) as [r|x] eqn:E; [eexists; reflexivity|].
  pose proof (proj1 (classify_investor_sub_scores data)) as H.
  rewrite E, Hs in H. discriminate (H eq_refl).
Qed.

(** Beyond that the division can overflow, and the engine raises. *)
Lemma classify_investor_overflow :
  classify_investor
    (with_dependants None
       {| age := Some 30%Z; monthly_income := Some 1%Z;
          monthly_emi := Some (2 ^ 1024)%Z;
          emergency_fund_months := None; emergency_fund_amount := None;
          monthly_expenses := None; insurance := None;
          insurance_amount := None; dependants := None;
          risk_attitude := None; investment_knowledge := None;
          drawdown_reaction := None; risk_tolerance := None;
          time_horizon := None; return_expectation := None |})
  = Raise OverflowError.
Proof. vm_compute. reflexivity. Qed.

(** * Further properties of the engine *)

(** ** The threshold tables are monotone *)

Ltac by_thresholds :=
  repeat match goal with
         | |- context [(?a <=? ?b)%Z] => destruct (Z.leb_spec a b)
         | |- context [(?a <? ?b)%Z] => destruct (Z.ltb_spec a b)
         | |- context [(?a =? ?b)%Z] => destruct (Z.eqb_spec a b)
         end;
  try lia; try reflexivity.

(** X1: the age score never rises with age. *)
Theorem get_age_score_antitone (a b : Z) :
  (a <= b)%Z -> (get_age_score b <=? get_age_score a) = true.
Proof. intro H. unfold get_age_score. by_thresholds. Qed.

Lemma get_age_score_antitone_witness :
  (get_age_score 26 <=? get_age_score 25) = true.
Proof.
  apply get_age_score_antitone. lia.
Defined.

(** X2: the income score never falls as the income rises. *)
Theorem get_income_score_monotone (a b : Z) :
  (a <= b)%Z ->
  (get_income_score_from_threshold a <=? get_income_score_from_threshold b)
  = true.
Proof. intro H. unfold get_income_score_from_threshold. by_thresholds. Qed.

Lemma get_income_score_monotone_witness :
  (get_income_score_from_threshold 19999
   <=? get_income_score_from_threshold 20000) = true.
Proof.
  apply get_income_score_monotone. lia.
Defined.

(** X3: the time-horizon score never falls as the horizon grows. *)
Theorem get_time_horizon_score_monotone (a b : Z) :
  (a <= b)%Z ->
  (get_time_horizon_score a <=? get_time_horizon_score b) = true.
Proof. intro H. unfold get_time_horizon_score. by_thresholds. Qed.

Lemma get_time_horizon_score_monotone_witness :
  (get_time_horizon_score 3 <=? get_time_horizon_score 4) = true.
Proof.
  apply get_time_horizon_score_monotone. lia.
Defined.

(** X4: an insurance amount is scored exactly when it is present; from
    1 upwards the score never falls as the amount rises and is at least
    40; the amount 0 scores 30; and a negative amount, which nothing
    rejects, scores 40, more than no cover at all. *)
Theorem get_insurance_score_order (a b : Z) :
  get_insurance_score None = None
  /\ (exists s, get_insurance_score (Some a) = Some s
                /\ (30 <=? s) = true /\ (s <=? 100) = true)
  /\ get_insurance_score (Some 0%Z) = Some 30.0
  /\ ((a < 0)%Z -> get_insurance_score (Some a) = Some 40.0)
  /\ ((1 <= a)%Z -> (a <= b)%Z ->
      exists s t, get_insurance_score (Some a) = Some s
                  /\ get_insurance_score (Some b) = Some t
                  /\ (40 <=? s) = true /\ (s <=? t) = true).
Proof.
  split; [reflexivity|]. split.
  { unfold get_insurance_score. eexists. split; [reflexivity|].
    by_thresholds; split; reflexivity. }
  split; [reflexivity|]. split.
  { intro H. unfold get_insurance_score. by_thresholds. }
  intros Ha Hab. unfold get_insurance_score. do 2 eexists.
  split; [reflexivity|]. split; [reflexivity|].
  by_thresholds; split; reflexivity.
Qed.

Lemma get_insurance_score_order_witness :
  get_insurance_score (Some (-1)%Z) = Some 40.0
  /\ exists s t, get_insurance_score (Some 499999%Z) = Some s
                 /\ get_insurance_score (Some 500000%Z) = Some t
                 /\ (40 <=? s) = true /\ (s <=? t) = true.
Proof.
  destruct (get_insurance_score_order (-1) 0) as (_ & _ & _ & Hneg & _).
  destruct (get_insurance_score_order 499999 500000) as (_ & _ & _ & _ & H).
  split; [apply Hneg; lia | apply H; lia].
Defined.



(** ** The factor list *)

Lemma insurance_sub_truthy (data : InvestorInput) (s : float) :
  insurance_sub data = Some s -> float_truthy s = true.
Proof.
  unfold insurance_sub, get_insurance_score.
  destruct (insurance_amount data) as [a|].
  - intro H. injection H as <-. by_thresholds.
  - destruct (insurance data) as [ins|]; [|discriminate].
    destruct (bool_truthy (has_health ins)), (bool_truthy (has_life ins));
      simpl; intro H; injection H as <-; reflexivity.
Qed.

Lemma dependants_score_truthy (n : option Z) (s : float) :
  get_dependants_score n = Some s -> float_truthy s = true.
Proof.
  unfold get_dependants_score. destruct n as [n|]; [|discriminate].
  intro H. injection H as <-. by_thresholds.
Qed.

(** The names in the factor list. *)
Lemma factor_names_list (data : InvestorInput) (r : Classification) :
  classify_investor data = Ok r ->
  List.map name (factors r) =
    (["age"; "financial_stability"; "risk_tolerance"; "time_horizon";
      "return_expectation"]
     ++ match insurance_amount data, insurance data with
        | None, None => []
        | _, _ => ["insurance"]
        end
     ++ match dependants data with
        | None => []
        | Some _ => ["dependants"]
        end)%list.
Proof.
  intro H.
  destruct (classify_investor_inv _ _ H) as (s & _ & _ & _ & _ & Hf).
  assert (List.map name (optional_factor "insurance" (insurance_sub data))
          = match insurance_amount data, insurance data with
            | None, None => []
            | _, _ => ["insurance"]
            end) as Hi.
  { pose proof (insurance_sub_truthy data) as Ht.
    unfold optional_factor.
    destruct (insurance_sub data) as [x|] eqn:E.
    - rewrite (Ht x eq_refl). unfold insurance_sub in E.
      destruct (insurance_amount data); [reflexivity|].
      destruct (insurance data); [reflexivity | discriminate].
    - unfold insurance_sub, get_insurance_score in E.
      destruct (insurance_amount data); [discriminate|].
      destruct (insurance data) as [ins|]; [|reflexivity].
      destruct (bool_truthy (has_health ins) && bool_truthy (has_life ins));
        [discriminate|].
      destruct (bool_truthy (has_health ins) || bool_truthy (has_life ins));
        discriminate. }
  assert (List.map name (optional_factor "dependants"
                           (get_dependants_score (dependants data)))
          = match dependants data with
            | None => []
            | Some _ => ["dependants"]
            end) as Hd.
  { pose proof (dependants_score_truthy (dependants data)) as Ht.
    unfold optional_factor.
    destruct (get_dependants_score (dependants data)) as [x|] eqn:E.
    - rewrite (Ht x eq_refl).
      destruct (dependants data); [reflexivity | discriminate].
    - destruct (dependants data); [discriminate | reflexivity]. }
  rewrite Hf, !map_app, Hi, Hd. reflexivity.
Qed.

(** X6: the factor list names age, financial_stability, risk_tolerance,
    time_horizon and return_expectation in this order, then insurance
    exactly when an insurance amount or an insurance record is present,
    then dependants exactly when a number of dependants is present: the
    truth test on a sub-score never drops a present one.  So the list
    has five to seven entries. *)
Theorem factor_names (data : InvestorInput) (r : Classification) :
  classify_investor data = Ok r ->
  List.map name (factors r) =
    (["age"; "financial_stability"; "risk_tolerance"; "time_horizon";
      "return_expectation"]
     ++ match insurance_amount data, insurance data with
        | None, None => []
        | _, _ => ["insurance"]
        end
     ++ match dependants data with
        | None => []
        | Some _ => ["dependants"]
        end)%list
  /\ (5 <= List.length (factors r) <= 7)%nat.
Proof.
  intro H. pose proof (factor_names_list data r H) as Hn.
  split; [exact Hn|].
  rewrite <- (length_map name), Hn.
  destruct (insurance_amount data), (insurance data), (dependants data);
    simpl; lia.
Qed.

Lemma factor_names_witness :
  exists r,
    classify_investor amount_input = Ok r
    /\ List.map name (factors r) =
         ["age"; "financial_stability"; "risk_tolerance"; "time_horizon";
          "return_expectation"; "insurance"; "dependants"].
Proof.
  assert (exists r, classify_investor amount_input = Ok r) as [r Hr]
    by (eexists; vm_compute; reflexivity).
  exists r. split; [exact Hr|].
  exact (proj1 (factor_names amount_input r Hr)).
Defined.

(** X16: when an insurance amount is present the insurance record is
    not looked at: the whole result is the one without the record. *)
Theorem insurance_amount_wins
        (data : InvestorInput) (ins : option Insurance) :
  insurance_amount data <> None ->
  classify_investor (with_insurance ins data)
  = classify_investor (with_insurance None data).
Proof.
  intro Ha. unfold classify_investor, insurance_sub.
  destruct (insurance_amount data) as [a|] eqn:E; [|contradiction].
  cbn. rewrite E. cbn. reflexivity.
Qed.

Lemma insurance_amount_wins_witness :
  classify_investor
    (with_insurance (Some {| has_health := Some true; has_life := Some true |})
                    (with_insurance_amount (Some 0%Z) example_input))
  = classify_investor
      (with_insurance None (with_insurance_amount (Some 0%Z) example_input)).
Proof.
  apply insurance_amount_wins. discriminate.
Defined.

(** ** The reported contributions add up to the score *)

Lemma tabulate_sums_ext {B : Type} (f g : Z -> Z -> Z -> Z -> Z -> B) :
  tabulate_sums f = tabulate_sums g ->
  forall a s r t x,
    In a age_table -> In s financial_sums -> In r risk_table ->
    In t time_table -> In x return_table ->
    f a s r t x = g a s r t x.
Proof.
  unfold tabulate_sums. intros H a s r t x Ha Hs Hr Ht Hx.
  apply (ext_in_map H) in Ha.
  apply (ext_in_map Ha) in Hs.
  apply (ext_in_map Hs) in Hr.
  apply (ext_in_map Hr) in Ht.
  apply (ext_in_map Ht) in Hx.
  exact Hx.
Qed.

Lemma tabulate_financial_ext {B : Type} (f g : Z -> Z -> Z -> B) :
  tabulate_financial f = tabulate_financial g ->
  forall d i e,
    In d debt_table -> In i income_table -> In e emergency_table ->
    f d i e = g d i e.
Proof.
  unfold tabulate_financial. intros H d i e Hd Hi He.
  apply (ext_in_map H) in Hd.
  apply (ext_in_map Hd) in Hi.
  apply (ext_in_map Hi) in He.
  exact He.
Qed.

Lemma financial_sums_in (d i e : Z) :
  In d debt_table -> In i income_table -> In e emergency_table ->
  In (i + e + d)%Z financial_sums.
Proof.
  intros Hd Hi He. unfold financial_sums. apply nodup_In.
  apply in_flat_map. exists d. split; [exact Hd|].
  apply in_flat_map. exists i. split; [exact Hi|].
  apply in_map_iff. exists e. split; [reflexivity | exact He].
Qed.

Lemma reported_sum_exact : tabulate_sums reported_sum = tabulate_sums reported_exact.
Proof. vm_compute. reflexivity. Qed.

Lemma weighted_age_table :
  List.map (fun a => round2 (float_of_Z a * WEIGHTS k_age)) age_table
  = List.map (fun a => of_cents (25 * a)) age_table.
Proof. vm_compute. reflexivity. Qed.

Lemma weighted_financial_table :
  tabulate_financial
    (fun d i e => round2 ((float_of_Z i + float_of_Z e + float_of_Z d) / 3
                          * WEIGHTS k_financial_stability))
  = tabulate_financial (fun d i e => of_cents (10 * (i + e + d))).
Proof. vm_compute. reflexivity. Qed.

Lemma weighted_risk_table :
  List.map (fun r => round2 (float_of_Z r / 10 * WEIGHTS k_risk_tolerance))
           risk_table
  = List.map (fun r => of_cents (2 * r)) risk_table.
Proof. vm_compute. reflexivity. Qed.

Lemma weighted_time_table :
  List.map (fun t => round2 (float_of_Z t * WEIGHTS k_time_horizon)) time_table
  = List.map (fun t => of_cents (15 * t)) time_table.
Proof. vm_compute. reflexivity. Qed.

Lemma weighted_return_table :
  List.map (fun x => round2 (float_of_Z x * WEIGHTS k_return_expectation))
           return_table
  = List.map (fun x => of_cents (10 * x)) return_table.
Proof. vm_compute. reflexivity. Qed.

(** X7: the five weighted contributions that the factor list reports,
    added in order from 0.0, give exactly the returned score. *)
Theorem weighted_contributions_add_up
        (data : InvestorInput) (r : Classification) :
  classify_investor data = Ok r ->
  exists w1 w2 w3 w4 w5,
    List.map weighted (firstn 5 (factors r))
    = [Some w1; Some w2; Some w3; Some w4; Some w5]
    /\ score r = 0.0 + w1 + w2 + w3 + w4 + w5.
Proof.
  intro H.
  destruct (classify_investor_inv _ _ H) as (s & Hs & _ & _ & _ & Hf).
  destruct (score_exact _ _ H) as (s' & Hs' & _ & _ & Hsc).
  rewrite Hs in Hs'. injection Hs' as <-.
  destruct (sub_scores_table _ _ Hs)
    as (a & d & i & e & k & t & x & Ha & Hd & Hi & He & Hk & Ht & Hx & ->).
  rewrite composite_cents_table in Hsc by assumption.
  rewrite Hf. cbn [firstn app List.map weighted weighted_factor].
  do 5 eexists. split; [reflexivity|].
  unfold financial_sub, table_scores.
  cbn [age_sub income_score emergency_score debt_score risk_sub time_sub
       return_sub].
  rewrite (ext_in_map weighted_age_table a Ha).
  rewrite (tabulate_financial_ext _ _ weighted_financial_table d i e Hd Hi He).
  rewrite (ext_in_map weighted_risk_table k Hk).
  rewrite (ext_in_map weighted_time_table t Ht).
  rewrite (ext_in_map weighted_return_table x Hx).
  rewrite Hsc.
  pose proof (tabulate_sums_ext _ _ reported_sum_exact a (i + e + d)%Z k t x
                Ha (financial_sums_in _ _ _ Hd Hi He) Hk Ht Hx) as E.
  unfold reported_sum, reported_exact in E. rewrite E.
  unfold table_cents. reflexivity.
Qed.

Lemma weighted_contributions_add_up_witness :
  exists r,
    classify_investor example_input = Ok r
    /\ List.map weighted (firstn 5 (factors r))
       = [Some 18.75; Some 18.5; Some 12.0; Some 9.75; Some 6.0]
    /\ score r = 0.0 + 18.75 + 18.5 + 12.0 + 9.75 + 6.0.
Proof.
  assert (exists r, classify_investor example_input = Ok r) as [r Hr]
    by (eexists; vm_compute; reflexivity).
  exists r. split; [exact Hr|].
  destruct (weighted_contributions_add_up example_input r Hr)
    as (w1 & w2 & w3 & w4 & w5 & Hw & Hs).
  vm_compute in Hr. injection Hr as <-.
  vm_compute in Hw. injection Hw as <- <- <- <- <-.
  split; [vm_compute; reflexivity | exact Hs].
Defined.

(** ** What scores, profiles and recommendations can occur *)

Lemma grid_tight_grid :
  forallb (fun n => grid_tight (of_cents n)) cents_grid = true.
Proof. vm_compute. reflexivity. Qed.

Lemma score_grid_tight (data : InvestorInput) (r : Classification) :
  classify_investor data = Ok r -> grid_tight (score r) = true.
Proof.
  intro H. destruct (score_exact _ _ H) as (s & _ & Hg & _ & ->).
  pose proof grid_tight_grid as Hall. rewrite forallb_forall in Hall.
  exact (Hall _ Hg).
Qed.

Ltac split_andb H :=
  repeat (let H' := fresh "Hb" in
          apply andb_prop in H; destruct H as [H H']).

(** X8: every returned score lies between 26.25 and 91.0, both of which
    occur; so the clamp to [0, 100] and the rounding never change the
    weighted sum, and no profile is ever Ultra-Conservative. *)
Theorem score_envelope :
  (forall data r,
      classify_investor data = Ok r ->
      (26.25 <=? score r) = true
      /\ (score r <=? 91) = true
      /\ profile r <> "Ultra-Conservative"
      /\ exists s, sub_scores data = Ok s /\ score r = raw_score s)
  /\ (exists data r, classify_investor data = Ok r /\ score r = 26.25)
  /\ (exists data r, classify_investor data = Ok r /\ score r = 91.0).
Proof.
  split; [|split].
  - intros data r H. pose proof (score_grid_tight _ _ H) as Ht.
    destruct (classify_investor_inv _ _ H) as (_ & _ & _ & Hp & _ & _).
    destruct (score_exact _ _ H) as (s & Hs & _ & Hraw & Hsc).
    unfold grid_tight in Ht. split_andb Ht.
    split; [assumption|]. split; [assumption|].
    split.
    + rewrite Hp. intro E. rewrite E in *. discriminate.
    + exists s. split; [exact Hs|]. rewrite Hsc, Hraw. reflexivity.
  - exists {| age := Some 70%Z; monthly_income := Some 1000%Z;
              monthly_emi := Some 1000%Z;
              emergency_fund_months := None; emergency_fund_amount := None;
              monthly_expenses := None; insurance := None;
              insurance_amount := None; dependants := None;
              risk_attitude := None; investment_knowledge := None;
              drawdown_reaction := None;
              risk_tolerance := Some "conservative";
              time_horizon := Some 1%Z; return_expectation := Some 5.0 |}.
    eexists. split; [vm_compute; reflexivity | reflexivity].
  - exists {| age := Some 20%Z; monthly_income := Some 10000000%Z;
              monthly_emi := Some 0%Z;
              emergency_fund_months := Some 9.0;
              emergency_fund_amount := None;
              monthly_expenses := None; insurance := None;
              insurance_amount := None; dependants := None;
              risk_attitude := None; investment_knowledge := None;
              drawdown_reaction := None;
              risk_tolerance := Some "aggressive";
              time_horizon := Some 10%Z; return_expectation := Some 20.0 |}.
    eexists. split; [vm_compute; reflexivity | reflexivity].
Qed.

Lemma score_envelope_witness :
  exists r,
    classify_investor example_input = Ok r
    /\ (26.25 <=? score r) = true /\ (score r <=? 91) = true
    /\ profile r <> "Ultra-Conservative".
Proof.
  assert (exists r, classify_investor example_input = Ok r) as [r Hr]
    by (eexists; vm_compute; reflexivity).
  exists r. split; [exact Hr|].
  destruct (proj1 score_envelope example_input r Hr) as (H1 & H2 & H3 & _).
  split; [exact H1|]. split; [exact H2 | exact H3].
Defined.

(** X17: "invest in debt > gold > equity" is only ever recommended to a
    Conservative profile, a Moderate profile is always recommended
    "invest in debt > equity > gold", "invest in equity > debt > gold"
    is only recommended to Moderate-Aggressive, Aggressive and
    Ultra-Aggressive profiles, and always to the last two. *)
Theorem profile_and_recommendation
        (data : InvestorInput) (r : Classification) :
  classify_investor data = Ok r ->
  (recommendation r = "invest in debt > gold > equity" ->
   profile r = "Conservative")
  /\ (profile r = "Moderate" ->
      recommendation r = "invest in debt > equity > gold")
  /\ (recommendation r = "invest in equity > debt > gold" ->
      In (profile r) ["Moderate-Aggressive"; "Aggressive"; "Ultra-Aggressive"])
  /\ (In (profile r) ["Aggressive"; "Ultra-Aggressive"] ->
      recommendation r = "invest in equity > debt > gold").
Proof.
  intro H. pose proof (score_grid_tight _ _ H) as Ht.
  destruct (classify_investor_inv _ _ H) as (_ & _ & _ & -> & -> & _).
  unfold grid_tight in Ht.
  apply andb_prop in Ht. destruct Ht as [Ht H7].
  apply andb_prop in Ht. destruct Ht as [Ht H6].
  apply andb_prop in Ht. destruct Ht as [Ht H5].
  apply andb_prop in Ht. destruct Ht as [_ H4].
  split; [|split; [|split]].
  - intro E. rewrite E, String.eqb_refl in H4.
    apply String.eqb_eq. exact H4.
  - intro E. rewrite E, String.eqb_refl in H5.
    apply String.eqb_eq. exact H5.
  - intro E. rewrite E, String.eqb_refl in H6. cbn [implb] in H6.
    apply existsb_exists in H6. destruct H6 as [p [Hin Hp]].
    apply String.eqb_eq in Hp. rewrite Hp. exact Hin.
  - intro Hin.
    assert (existsb (String.eqb (profile_of (score r)))
                    ["Aggressive"; "Ultra-Aggressive"] = true) as Hex.
    { apply existsb_exists. exists (profile_of (score r)).
      split; [exact Hin | apply String.eqb_refl]. }
    rewrite Hex in H7. apply String.eqb_eq. exact H7.
Qed.

Lemma profile_and_recommendation_witness :
  exists r,
    classify_investor low_income_input = Ok r
    /\ recommendation r = "invest in debt > equity > gold".
Proof.
  assert (exists r, classify_investor low_income_input = Ok r) as [r Hr]
    by (eexists; vm_compute; reflexivity).
  exists r. split; [exact Hr|].
  apply (proj1 (proj2 (profile_and_recommendation low_income_input r Hr))).
  vm_compute in Hr. injection Hr as <-. reflexivity.
Defined.

(** ** Every listed sub-score is between 10 and 100 *)

Lemma shown_score_tables :
  forallb (fun z => shown_ok (float_of_Z z))
          (age_table ++ time_table ++ return_table)%list = true.
Proof. vm_compute. reflexivity. Qed.

Lemma shown_risk_table :
  forallb (fun r => shown_ok (round2 (float_of_Z r / 10))) risk_table = true.
Proof. vm_compute. reflexivity. Qed.

Lemma shown_financial_table :
  forallb (fun d =>
    forallb (fun i =>
      forallb (fun e =>
        shown_ok (round2 ((float_of_Z i + float_of_Z e + float_of_Z d) / 3)))
        emergency_table) income_table) debt_table = true.
Proof. vm_compute. reflexivity. Qed.

Lemma optional_factor_shown (n : string) (sub : option float) (f : Factor) :
  (forall s, sub = Some s -> shown_ok s = true) ->
  In f (optional_factor n sub) -> shown_ok (subscore f) = true.
Proof.
  intros Hs. unfold optional_factor. destruct sub as [s|]; [|intros []].
  destruct (float_truthy s); [|intros []].
  intros [<- | []]. exact (Hs s eq_refl).
Qed.

(** X12: every sub-score in the factor list, the informational ones
    included, lies between 10 and 100. *)
Theorem listed_subscores_in_range
        (data : InvestorInput) (r : Classification) (f : Factor) :
  classify_investor data = Ok r ->
  In f (factors r) ->
  (10 <=? subscore f) = true /\ (subscore f <=? 100) = true.
Proof.
  intros H Hin. apply andb_prop. change (shown_ok (subscore f) = true).
  destruct (classify_investor_inv _ _ H) as (s & Hs & _ & _ & _ & Hf).
  destruct (sub_scores_table _ _ Hs)
    as (a & d & i & e & k & t & x & Ha & Hd & Hi & He & Hk & Ht & Hx & ->).
  rewrite Hf in Hin. rewrite !in_app_iff in Hin.
  pose proof shown_score_tables as Htab. rewrite forallb_forall in Htab.
  destruct Hin as [Hin | [Hin | Hin]].
  - unfold financial_sub, table_scores in Hin. simpl in Hin.
    destruct Hin as [<- | [<- | [<- | [<- | [<- | []]]]]]; simpl.
    + apply Htab. rewrite !in_app_iff. tauto.
    + pose proof shown_financial_table as Hfin.
      rewrite forallb_forall in Hfin. specialize (Hfin d Hd).
      rewrite forallb_forall in Hfin. specialize (Hfin i Hi).
      rewrite forallb_forall in Hfin. exact (Hfin e He).
    + pose proof shown_risk_table as Hr. rewrite forallb_forall in Hr.
      exact (Hr k Hk).
    + apply Htab. rewrite !in_app_iff. tauto.
    + apply Htab. rewrite !in_app_iff. tauto.
  - refine (optional_factor_shown _ _ _ _ Hin).
    unfold insurance_sub, get_insurance_score. intros y.
    destruct (insurance_amount data) as [amt|].
    + intro E. injection E as <-. by_thresholds.
    + destruct (insurance data) as [ins|]; [|discriminate].
      destruct (bool_truthy (has_health ins)), (bool_truthy (has_life ins));
        simpl; intro E; injection E as <-; reflexivity.
  - refine (optional_factor_shown _ _ _ _ Hin).
    unfold get_dependants_score. intros y.
    destruct (dependants data) as [n|]; [|discriminate].
    intro E. injection E as <-. by_thresholds.
Qed.

Lemma listed_subscores_in_range_witness :
  exists r f,
    classify_investor example_input = Ok r /\ In f (factors r)
    /\ name f = "financial_stability"
    /\ (10 <=? subscore f) = true /\ (subscore f <=? 100) = true.
Proof.
  assert (exists r, classify_investor example_input = Ok r) as [r Hr]
    by (eexists; vm_compute; reflexivity).
  exists r, (weighted_factor k_financial_stability 61.67 (185 / 3)).
  assert (In (weighted_factor k_financial_stability 61.67 (185 / 3))
             (factors r)) as Hin.
  { pose proof Hr as Hr'. vm_compute in Hr'. injection Hr' as <-.
    right. left. vm_compute. reflexivity. }
  split; [exact Hr|]. split; [exact Hin|]. split; [reflexivity|].
  exact (listed_subscores_in_range example_input r _ Hr Hin).
Defined.

(** ** Fields that fall back to a default *)

(** X10: an age, a time horizon or a return expectation of 0 (also
    -0.0), and a monthly income, EMI or expenses of 0, give the result
    that the absent field gives.  So an age of 0 scores 75 as age 30
    does, though the age table gives 90 for 0; a time horizon of 0
    scores 65, though the table gives 35; a return expectation of 0
    scores 60, though the table gives 35. *)
Theorem zero_falls_back_to_default (data : InvestorInput) :
  classify_investor (with_age (Some 0%Z) data)
  = classify_investor (with_age None data)
  /\ classify_investor (with_time_horizon (Some 0%Z) data)
     = classify_investor (with_time_horizon None data)
  /\ classify_investor (with_return_expectation (Some 0.0) data)
     = classify_investor (with_return_expectation None data)
  /\ classify_investor (with_return_expectation (Some (-0.0)) data)
     = classify_investor (with_return_expectation None data)
  /\ classify_investor (with_monthly_income (Some 0%Z) data)
     = classify_investor (with_monthly_income None data)
  /\ classify_investor (with_monthly_emi (Some 0%Z) data)
     = classify_investor (with_monthly_emi None data)
  /\ classify_investor (with_monthly_expenses (Some 0%Z) data)
     = classify_investor (with_monthly_expenses None data)
  /\ (forall s, sub_scores (with_age (Some 0%Z) data) = Ok s ->
                age_sub s = 75.0 /\ get_age_score 0 = 90.0)
  /\ (forall s, sub_scores (with_time_horizon (Some 0%Z) data) = Ok s ->
                time_sub s = 65.0 /\ get_time_horizon_score 0 = 35.0)
  /\ (forall s, sub_scores (with_return_expectation (Some 0.0) data) = Ok s ->
                return_sub s = 60.0
                /\ get_return_expectation_score 0.0 = 35.0).
Proof.
  do 7 (split; [reflexivity|]).
  unfold sub_scores. split; [|split]; intros s H;
    apply bind_ok in H; destruct H as [q [_ H]];
    apply bind_ok in H; destruct H as [q' [_ H]];
    injection H as <-; split; reflexivity.
Qed.

Lemma zero_falls_back_to_default_witness :
  exists s, sub_scores (with_age (Some 0%Z) example_input) = Ok s
            /\ age_sub s = 75.0.
Proof.
  assert (exists s, sub_scores (with_age (Some 0%Z) example_input) = Ok s)
    as [s Hs] by (eexists; vm_compute; reflexivity).
  exists s. split; [exact Hs|].
  destruct (zero_falls_back_to_default example_input)
    as (_ & _ & _ & _ & _ & _ & _ & Hage & _).
  exact (proj1 (Hage s Hs)).
Defined.

(** ** Risk tolerance: label, unknown Likert values *)

(** X11: when a risk-tolerance label is given, risk attitude,
    investment knowledge and drawdown reaction have no influence on the
    result. *)
Theorem risk_label_overrides
        (data : InvestorInput) (a k : option Z) (dd : option string) :
  str_truthy (risk_tolerance data) = true ->
  classify_investor (with_risk_attitude a data)
  = classify_investor (with_risk_attitude None data)
  /\ classify_investor (with_investment_knowledge k data)
     = classify_investor (with_investment_knowledge None data)
  /\ classify_investor (with_drawdown_reaction dd data)
     = classify_investor (with_drawdown_reaction None data).
Proof.
  intro H.
  assert (forall d1 d2,
             risk_tolerance d1 = risk_tolerance data ->
             risk_tolerance d2 = risk_tolerance data ->
             risk_tolerance_sub d1 = risk_tolerance_sub d2) as Hsub.
  { intros d1 d2 E1 E2. unfold risk_tolerance_sub. rewrite E1, E2.
    destruct (risk_tolerance data) as [rt|]; [|discriminate H].
    rewrite H. reflexivity. }
  unfold classify_investor.
  split; [|split].
  - rewrite (Hsub (with_risk_attitude a data)
                  (with_risk_attitude None data) eq_refl eq_refl).
    reflexivity.
  - rewrite (Hsub (with_investment_knowledge k data)
                  (with_investment_knowledge None data) eq_refl eq_refl).
    reflexivity.
  - rewrite (Hsub (with_drawdown_reaction dd data)
                  (with_drawdown_reaction None data) eq_refl eq_refl).
    reflexivity.
Qed.

Lemma risk_label_overrides_witness :
  classify_investor
    (with_risk_attitude (Some 5%Z)
       (with_return_expectation None
          {| age := Some 28%Z; monthly_income := Some 120000%Z;
             monthly_emi := Some 15000%Z;
             emergency_fund_months := None; emergency_fund_amount := None;
             monthly_expenses := None; insurance := None;
             insurance_amount := None; dependants := None;
             risk_attitude := None; investment_knowledge := None;
             drawdown_reaction := None;
             risk_tolerance := Some "conservative";
             time_horizon := None; return_expectation := None |}))
  = classify_investor
      (with_risk_attitude None
         (with_return_expectation None
            {| age := Some 28%Z; monthly_income := Some 120000%Z;
               monthly_emi := Some 15000%Z;
               emergency_fund_months := None; emergency_fund_amount := None;
               monthly_expenses := None; insurance := None;
               insurance_amount := None; dependants := None;
               risk_attitude := None; investment_knowledge := None;
               drawdown_reaction := None;
               risk_tolerance := Some "conservative";
               time_horizon := None; return_expectation := None |})).
Proof.
  refine (proj1 (risk_label_overrides _ (Some 5%Z) None None _)).
  reflexivity.
Defined.

(** X19: a risk attitude or investment knowledge outside 1..5, other
    than 0, is scored as a 3 is: the look-up of an unknown key falls
    back to 60.0. *)
Theorem likert_out_of_range (data : InvestorInput) (v : Z) :
  v <> 0%Z -> (v < 1 \/ 5 < v)%Z ->
  classify_investor (with_risk_attitude (Some v) data)
  = classify_investor (with_risk_attitude (Some 3%Z) data)
  /\ classify_investor (with_investment_knowledge (Some v) data)
     = classify_investor (with_investment_knowledge (Some 3%Z) data).
Proof.
  intros Hnz Hout.
  assert (likert_get v = 60.0) as Hl.
  { destruct v as [|p|p]; try reflexivity.
    do 3 (try destruct p as [p|p|]); try reflexivity; lia. }
  apply Z.eqb_neq in Hnz.
  assert (forall d1 d2, risk_subs d1 = risk_subs d2 ->
                        risk_tolerance d1 = risk_tolerance d2 ->
                        risk_tolerance_sub d1 = risk_tolerance_sub d2) as Hsub.
  { intros d1 d2 E1 E2. unfold risk_tolerance_sub. rewrite E1, E2.
    reflexivity. }
  unfold classify_investor. split.
  - rewrite (Hsub (with_risk_attitude (Some v) data)
                  (with_risk_attitude (Some 3%Z) data)); [reflexivity | |
                                                          reflexivity].
    unfold risk_subs. cbn. rewrite Hnz. cbn. rewrite Hl. reflexivity.
  - rewrite (Hsub (with_investment_knowledge (Some v) data)
                  (with_investment_knowledge (Some 3%Z) data));
      [reflexivity | | reflexivity].
    unfold risk_subs. cbn. rewrite Hnz. cbn. rewrite Hl. reflexivity.
Qed.

Lemma likert_out_of_range_witness :
  classify_investor (with_risk_attitude (Some 7%Z) example_input)
  = classify_investor (with_risk_attitude (Some 3%Z) example_input).
Proof.
  refine (proj1 (likert_out_of_range example_input 7 _ _)); lia.
Defined.

(** ** The only exception *)

Lemma int_truediv_raise (a b : Z) (e : exn) :
  b <> 0%Z -> int_truediv a b = Raise e -> e = OverflowError.
Proof.
  intros Hb. unfold int_truediv. apply Z.eqb_neq in Hb. rewrite Hb.
  destruct (SFdiv prec emax (int_to_SF a) (int_to_SF b));
    intro H; try discriminate H.
  injection H as <-. reflexivity.
Qed.

(** X9: the engine never divides by zero; the only exception it raises
    is OverflowError, and only when the EMI or the emergency-fund amount
    has 1024 binary digits or more. *)
Theorem only_overflow (data : InvestorInput) (e : exn) :
  classify_investor data = Raise e ->
  e = OverflowError
  /\ ((2 ^ 1023 <= Z.abs (int_or (monthly_emi data) 0))%Z
      \/ exists amount, emergency_fund_amount data = Some amount
                        /\ (2 ^ 1023 <= Z.abs amount)%Z).
Proof.
  intro H. split.
  - unfold classify_investor in H.
    destruct (emi_ratio_fallback_dead data) as [Hnz Hemi].
    rewrite Hemi in H.
    destruct (int_truediv (int_or (monthly_emi data) 0)
                          (int_or (monthly_income data) 1)) as [q|x] eqn:E.
    + cbn [bind] in H. unfold emergency_ratio in H.
      destruct (emergency_fund_amount data) as [amount|];
        [| destruct (emergency_fund_months data); discriminate H].
      destruct (Z.ltb_spec 0 (int_or (monthly_expenses data) 0));
        [| destruct (emergency_fund_months data); discriminate H].
      destruct (int_truediv amount (6 * int_or (monthly_expenses data) 0))
        as [q'|x] eqn:E'; [discriminate H|].
      cbn [bind] in H. injection H as <-.
      apply int_truediv_raise with (2 := E'). lia.
    + cbn [bind] in H. injection H as <-.
      exact (int_truediv_raise _ _ _ Hnz E).
  - destruct (Z.lt_ge_cases (Z.abs (int_or (monthly_emi data) 0)) (2 ^ 1023))
      as [Hemi | Hemi]; [|left; exact Hemi].
    destruct (emergency_fund_amount data) as [amount|] eqn:Ea.
    + destruct (Z.lt_ge_cases (Z.abs amount) (2 ^ 1023)) as [Ham | Ham];
        [| right; exists amount; split; [reflexivity | exact Ham]].
      exfalso.
      destruct (classify_investor_returns data Hemi) as [r Hr].
      { intros a' Ea'. rewrite Ea in Ea'. injection Ea' as <-. exact Ham. }
      rewrite Hr in H. discriminate H.
    + exfalso.
      destruct (classify_investor_returns data Hemi) as [r Hr].
      { intros a' Ea'. rewrite Ea in Ea'. discriminate Ea'. }
      rewrite Hr in H. discriminate H.
Qed.

Lemma only_overflow_witness :
  classify_investor
    (with_monthly_emi (Some (2 ^ 1024)%Z)
       (with_monthly_income (Some 1%Z) InvestorInput_default))
  = Raise OverflowError.
Proof.
  assert (exists e, classify_investor
                      (with_monthly_emi (Some (2 ^ 1024)%Z)
                         (with_monthly_income (Some 1%Z)
                                              InvestorInput_default))
                    = Raise e) as [e He]
    by (eexists; vm_compute; reflexivity).
  rewrite He. f_equal. exact (proj1 (only_overflow _ _ He)).
Defined.

(** ** The score follows the age and the time horizon *)

Lemma age_entry_spec (x : Z) :
  In (age_entry x) age_table /\ get_age_score x = float_of_Z (age_entry x).
Proof.
  unfold age_entry, get_age_score. split_ifs; split;
    try (simpl; tauto); vm_compute; reflexivity.
Qed.

Lemma time_entry_spec (x : Z) :
  In (time_entry x) time_table
  /\ get_time_horizon_score x = float_of_Z (time_entry x).
Proof.
  unfold time_entry, get_time_horizon_score. split_ifs; split;
    try (simpl; tauto); vm_compute; reflexivity.
Qed.

Lemma age_entry_antitone (a b : Z) :
  (a <= b)%Z -> (age_entry b <= age_entry a)%Z.
Proof. intro H. unfold age_entry. by_thresholds. Qed.

Lemma time_entry_monotone (a b : Z) :
  (a <= b)%Z -> (time_entry a <= time_entry b)%Z.
Proof. intro H. unfold time_entry. by_thresholds. Qed.

Lemma grid_rises :
  forallb (fun n =>
    forallb (fun d =>
      implb (n + d <=? 9100)%Z (of_cents n <=? of_cents (n + d)))
      score_rises) cents_grid = true.
Proof. vm_compute. reflexivity. Qed.

Lemma cents_grid_le (n : Z) : In n cents_grid -> (n <= 9100)%Z.
Proof.
  unfold cents_grid. intro H. apply in_map_iff in H.
  destruct H as [k [<- Hk]]. apply in_seq in Hk. lia.
Qed.

Lemma of_cents_rise (n d : Z) :
  In n cents_grid -> In (n + d)%Z cents_grid -> In d score_rises ->
  (of_cents n <=? of_cents (n + d)) = true.
Proof.
  intros Hn Hnd Hd. pose proof grid_rises as H.
  rewrite forallb_forall in H. specialize (H n Hn).
  rewrite forallb_forall in H. specialize (H d Hd).
  apply cents_grid_le in Hnd. apply Z.leb_le in Hnd.
  rewrite Hnd in H. exact H.
Qed.

Lemma age_rise_in (a b : Z) :
  In a age_table -> In b age_table -> (b <= a)%Z ->
  In (25 * (a - b))%Z score_rises.
Proof.
  intros Ha Hb Hle. unfold score_rises. apply filter_In. split.
  - apply in_app_iff. left. apply in_flat_map. exists a. split; [exact Ha|].
    apply in_map_iff. exists b. split; [reflexivity | exact Hb].
  - apply Z.leb_le. lia.
Qed.

Lemma time_rise_in (a b : Z) :
  In a time_table -> In b time_table -> (b <= a)%Z ->
  In (15 * (a - b))%Z score_rises.
Proof.
  intros Ha Hb Hle. unfold score_rises. apply filter_In. split.
  - apply in_app_iff. right. apply in_flat_map. exists a. split; [exact Ha|].
    apply in_map_iff. exists b. split; [reflexivity | exact Hb].
  - apply Z.leb_le. lia.
Qed.

Lemma normalize_table (a d i e k t x : Z) :
  In a age_table -> In d debt_table -> In i income_table ->
  In e emergency_table -> In k risk_table -> In t time_table ->
  In x return_table ->
  normalize (raw_score (table_scores a d i e k t x))
  = of_cents (table_cents a d i e k t x).
Proof.
  intros Ha Hd Hi He Hk Ht Hx.
  pose proof (tabulate_ext _ _ table_raw_exact _ _ _ _ _ _ _
                Ha Hd Hi He Hk Ht Hx) as Hraw.
  unfold table_raw, table_exact in Hraw. rewrite Hraw.
  exact (ext_in_map normalize_grid _
           (table_cents_grid _ _ _ _ _ _ _ Ha Hd Hi He Hk Ht Hx)).
Qed.

Lemma sub_scores_with_age (v : option Z) (data : InvestorInput)
      (s1 : SubScores) :
  sub_scores (with_age v data) = Ok s1 ->
  exists s,
    sub_scores data = Ok s
    /\ s1 = {| age_sub := get_age_score (int_or v 30);
               debt_score := debt_score s; income_score := income_score s;
               emergency_score := emergency_score s; risk_sub := risk_sub s;
               time_sub := time_sub s; return_sub := return_sub s |}.
Proof.
  unfold sub_scores. intro H.
  apply bind_ok in H. destruct H as [q [Hq H]].
  apply bind_ok in H. destruct H as [q' [Hq' H]].
  change (emi_ratio (with_age v data)) with (emi_ratio data) in Hq.
  change (emergency_ratio (with_age v data)) with (emergency_ratio data)
    in Hq'.
  rewrite Hq, Hq'. cbn [bind]. eexists. split; [reflexivity|].
  injection H as <-. reflexivity.
Qed.

Lemma sub_scores_with_time_horizon (v : option Z) (data : InvestorInput)
      (s1 : SubScores) :
  sub_scores (with_time_horizon v data) = Ok s1 ->
  exists s,
    sub_scores data = Ok s
    /\ s1 = {| age_sub := age_sub s;
               debt_score := debt_score s; income_score := income_score s;
               emergency_score := emergency_score s; risk_sub := risk_sub s;
               time_sub := get_time_horizon_score (int_or v 5);
               return_sub := return_sub s |}.
Proof.
  unfold sub_scores. intro H.
  apply bind_ok in H. destruct H as [q [Hq H]].
  apply bind_ok in H. destruct H as [q' [Hq' H]].
  change (emi_ratio (with_time_horizon v data)) with (emi_ratio data) in Hq.
  change (emergency_ratio (with_time_horizon v data))
    with (emergency_ratio data) in Hq'.
  rewrite Hq, Hq'. cbn [bind]. eexists. split; [reflexivity|].
  injection H as <-. reflexivity.
Qed.

(** X18: all else equal, a higher age never gives a higher score and a
    longer time horizon never gives a lower one, provided the smaller of
    the two values is not 0 (which stands for the default). *)
Theorem score_follows_age_and_horizon
        (data : InvestorInput) (v1 v2 : Z) (r1 r2 : Classification) :
  v1 <> 0%Z -> (v1 <= v2)%Z ->
  (classify_investor (with_age (Some v1) data) = Ok r1 ->
   classify_investor (with_age (Some v2) data) = Ok r2 ->
   (score r2 <=? score r1) = true)
  /\ (classify_investor (with_time_horizon (Some v1) data) = Ok r1 ->
      classify_investor (with_time_horizon (Some v2) data) = Ok r2 ->
      (score r1 <=? score r2) = true).
Proof.
  intros Hnz Hle. split; intros H1 H2.
  - destruct (classify_investor_inv _ _ H1) as (s1 & Hs1 & Hsc1 & _).
    destruct (classify_investor_inv _ _ H2) as (s2 & Hs2 & Hsc2 & _).
    destruct (sub_scores_with_age _ _ _ Hs1) as (s & Hs & ->).
    destruct (sub_scores_with_age _ _ _ Hs2) as (s' & Hs' & ->).
    rewrite Hs in Hs'. injection Hs' as <-.
    destruct (sub_scores_table _ _ Hs)
      as (a & d & i & e & k & t & x & Ha & Hd & Hi & He & Hk & Ht & Hx & ->).
    cbn [table_scores age_sub debt_score income_score emergency_score
         risk_sub time_sub return_sub] in Hsc1, Hsc2.
    destruct (age_entry_spec (int_or (Some v1) 30)) as [Ha1 Ea1].
    destruct (age_entry_spec (int_or (Some v2) 30)) as [Ha2 Ea2].
    rewrite Ea1 in Hsc1. rewrite Ea2 in Hsc2.
    change (score r1 = normalize (raw_score
              (table_scores (age_entry (int_or (Some v1) 30)) d i e k t x)))
      in Hsc1.
    change (score r2 = normalize (raw_score
              (table_scores (age_entry (int_or (Some v2) 30)) d i e k t x)))
      in Hsc2.
    rewrite normalize_table in Hsc1, Hsc2 by assumption.
    rewrite Hsc1, Hsc2.
    assert (age_entry (int_or (Some v2) 30)
            <= age_entry (int_or (Some v1) 30))%Z as Hent.
    { apply age_entry_antitone. unfold int_or.
      destruct (Z.eqb_spec v1 0); [contradiction|].
      destruct (Z.eqb_spec v2 0); lia. }
    pose proof (of_cents_rise
                  (table_cents (age_entry (int_or (Some v2) 30)) d i e k t x)
                  (25 * (age_entry (int_or (Some v1) 30)
                         - age_entry (int_or (Some v2) 30)))) as Hrise.
    replace (table_cents (age_entry (int_or (Some v2) 30)) d i e k t x
             + 25 * (age_entry (int_or (Some v1) 30)
                     - age_entry (int_or (Some v2) 30)))%Z
      with (table_cents (age_entry (int_or (Some v1) 30)) d i e k t x)
      in Hrise by (unfold table_cents; lia).
    apply Hrise; try (apply table_cents_grid; assumption).
    apply age_rise_in; assumption.
  - destruct (classify_investor_inv _ _ H1) as (s1 & Hs1 & Hsc1 & _).
    destruct (classify_investor_inv _ _ H2) as (s2 & Hs2 & Hsc2 & _).
    destruct (sub_scores_with_time_horizon _ _ _ Hs1) as (s & Hs & ->).
    destruct (sub_scores_with_time_horizon _ _ _ Hs2) as (s' & Hs' & ->).
    rewrite Hs in Hs'. injection Hs' as <-.
    destruct (sub_scores_table _ _ Hs)
      as (a & d & i & e & k & t & x & Ha & Hd & Hi & He & Hk & Ht & Hx & ->).
    cbn [table_scores age_sub debt_score income_score emergency_score
         risk_sub time_sub return_sub] in Hsc1, Hsc2.
    destruct (time_entry_spec (int_or (Some v1) 5)) as [Ht1 Et1].
    destruct (time_entry_spec (int_or (Some v2) 5)) as [Ht2 Et2].
    rewrite Et1 in Hsc1. rewrite Et2 in Hsc2.
    change (score r1 = normalize (raw_score
              (table_scores a d i e k (time_entry (int_or (Some v1) 5)) x)))
      in Hsc1.
    change (score r2 = normalize (raw_score
              (table_scores a d i e k (time_entry (int_or (Some v2) 5)) x)))
      in Hsc2.
    rewrite normalize_table in Hsc1, Hsc2 by assumption.
    rewrite Hsc1, Hsc2.
    assert (time_entry (int_or (Some v1) 5)
            <= time_entry (int_or (Some v2) 5))%Z as Hent.
    { apply time_entry_monotone. unfold int_or.
      destruct (Z.eqb_spec v1 0); [contradiction|].
      destruct (Z.eqb_spec v2 0); lia. }
    pose proof (of_cents_rise
                  (table_cents a d i e k (time_entry (int_or (Some v1) 5)) x)
                  (15 * (time_entry (int_or (Some v2) 5)
                         - time_entry (int_or (Some v1) 5)))) as Hrise.
    replace (table_cents a d i e k (time_entry (int_or (Some v1) 5)) x
             + 15 * (time_entry (int_or (Some v2) 5)
                     - time_entry (int_or (Some v1) 5)))%Z
      with (table_cents a d i e k (time_entry (int_or (Some v2) 5)) x)
      in Hrise by (unfold table_cents; lia).
    apply Hrise; try (apply table_cents_grid; assumption).
    apply time_rise_in; assumption.
Qed.

Lemma score_follows_age_and_horizon_witness :
  exists r1 r2,
    classify_investor (with_age (Some 25%Z) example_input) = Ok r1
    /\ classify_investor (with_age (Some 26%Z) example_input) = Ok r2
    /\ (score r2 <=? score r1) = true.
Proof.
  assert (exists r, classify_investor (with_age (Some 25%Z) example_input)
                    = Ok r) as [r1 H1] by (eexists; vm_compute; reflexivity).
  assert (exists r, classify_investor (with_age (Some 26%Z) example_input)
                    = Ok r) as [r2 H2] by (eexists; vm_compute; reflexivity).
  exists r1, r2. split; [exact H1|]. split; [exact H2|].
  refine (proj1 (score_follows_age_and_horizon example_input 25 26 r1 r2 _ _)
                H1 H2); lia.
Defined.

(** ** The two copies of the engine *)

(** What [app.py] returns, and what [back.py] returns cut down to it:
    score, profile, recommendation, and name and sub-score of the five
    weighted factors. *)
Lemma emergency_score_agrees (data : InvestorInput) (q : float) :
  emergency_fund_amount data = None
  \/ (0 <? int_or (monthly_expenses data) 0)%Z = false ->
  match emergency_fund_months data with
  | Some m => float_truthy m = true \/ m = 0.0 \/ m = (-0.0)
  | None => True
  end ->
  emergency_ratio data = Ok q ->
  get_emergency_score_from_ratio q
  = get_emergency_score_from_ratio (App.emergency_ratio data).
Proof.
  intros Hpath Hm. unfold emergency_ratio, App.emergency_ratio.
  assert (match emergency_fund_months data with
          | Some months => Ok (months / 6)
          | None => Ok 0.0
          end = Ok q ->
          get_emergency_score_from_ratio q =
          get_emergency_score_from_ratio
            match emergency_fund_months data with
            | Some months => if float_truthy months then months / 6 else 0.0
            | None => 0.0
            end) as Hmonths.
  { destruct (emergency_fund_months data) as [m|];
      intro E; injection E as <-; [|reflexivity].
    destruct Hm as [Ht | [-> | ->]]; [rewrite Ht|..]; reflexivity. }
  destruct Hpath as [-> | ->]; [exact Hmonths|].
  destruct (emergency_fund_amount data); exact Hmonths.
Qed.

(** X13: the engine of [app.py] returns the score, profile and
    recommendation of [back.py], and the names and sub-scores of its
    five weighted factors, whenever [back.py] does not take the ratio
    from the emergency-fund amount (amount absent, or expenses absent or
    not positive) and the emergency months are absent, zero or truthy. *)
Theorem app_agrees_with_back (data : InvestorInput) :
  emergency_fund_amount data = None
  \/ (0 <? int_or (monthly_expenses data) 0)%Z = false ->
  match emergency_fund_months data with
  | Some m => float_truthy m = true \/ m = 0.0 \/ m = (-0.0)
  | None => True
  end ->
  Py.map (fun r => (App.score r, App.profile r, App.recommendation r,
                    List.map (fun f => (App.name f, App.subscore f))
                             (App.factors r)))
         (App.classify_investor data)
  = Py.map (fun r => (score r, profile r, recommendation r,
                      List.map (fun f => (name f, subscore f))
                               (firstn 5 (factors r))))
           (classify_investor data).
Proof.
  intros Hpath Hm.
  pose proof (emergency_score_agrees data) as Hes.
  unfold App.classify_investor, classify_investor.
  destruct (emi_ratio data) as [q|x]; [|reflexivity]. cbn [bind].
  destruct (emergency_ratio data) as [q'|x] eqn:E.
  - cbn [bind Py.map]. rewrite (Hes q' Hpath Hm eq_refl). reflexivity.
  - exfalso. unfold emergency_ratio in E.
    destruct Hpath as [Ea | Ex].
    + rewrite Ea in E. destruct (emergency_fund_months data); discriminate E.
    + rewrite Ex in E.
      destruct (emergency_fund_amount data);
        destruct (emergency_fund_months data); discriminate E.
Qed.

Lemma app_agrees_with_back_witness :
  Py.map (fun r => (App.score r, App.profile r, App.recommendation r))
         (App.classify_investor example_input)
  = Ok (65.0, "Moderate-Aggressive", "invest in debt > equity > gold").
Proof.
  pose proof (app_agrees_with_back example_input (or_introl eq_refl)
                                   (or_introl eq_refl)) as H.
  destruct (App.classify_investor example_input) as [r|x] eqn:E;
    [|vm_compute in E; discriminate E].
  cbn [Py.map bind] in *.
  assert (classify_investor example_input
          = Ok {| score := 65.0; profile := "Moderate-Aggressive";
                  recommendation := "invest in debt > equity > gold";
                  factors := [ weighted_factor k_age 75.0 75.0;
                    weighted_factor k_financial_stability 61.67 (185 / 3);
                    weighted_factor k_risk_tolerance 60.0 60.0;
                    weighted_factor k_time_horizon 65.0 65.0;
                    weighted_factor k_return_expectation 60.0 60.0;
                    info_factor "dependants" 75.0 ] |}) as Hb
      by (vm_compute; reflexivity).
  rewrite Hb in H. cbn [Py.map bind score profile recommendation] in H.
  injection H as Hs Hp Hr _. rewrite Hs, Hp, Hr. reflexivity.
Defined.

(** ** Requests from the form of [front.py] *)

(** X14: every submission of the form passes validation, and the input
    it leaves has no insurance amount, risk-tolerance label, time
    horizon or return expectation, but an insurance record and a number
    of dependants; so the time horizon always scores 65, the return
    expectation 60, and the factor list always has the same seven
    entries. *)
Theorem form_request (f : Front.Form) :
  exists data,
    InvestorInput_validate (Front.payload f) = Some data
    /\ classify (Front.payload f) = Some (classify_investor data)
    /\ age data = Some (Front.age f)
    /\ monthly_income data = Some (Front.monthly_income f)
    /\ monthly_emi data = Some (Front.monthly_emi f)
    /\ insurance data = Some {| has_health := Some (Front.has_health f);
                                has_life := Some (Front.has_life f) |}
    /\ insurance_amount data = None
    /\ dependants data = Some (Front.dependants f)
    /\ risk_attitude data = Some (Front.risk_attitude f)
    /\ investment_knowledge data = Some (Front.investment_knowledge f)
    /\ drawdown_reaction data
       = Some (Front.reaction_name (Front.drawdown_reaction f))
    /\ risk_tolerance data = None
    /\ time_horizon data = None
    /\ return_expectation data = None
    /\ (forall s, sub_scores data = Ok s ->
                  time_sub s = 65.0 /\ return_sub s = 60.0)
    /\ (forall r, classify_investor data = Ok r ->
                  List.map name (factors r)
                  = ["age"; "financial_stability"; "risk_tolerance";
                     "time_horizon"; "return_expectation"; "insurance";
                     "dependants"]).
Proof.
  destruct f as [a mi me ch hh hl dep ra ik dd].
  destruct ch as [m | amt ex]; destruct dd;
    (eexists; split; [reflexivity|]; split; [reflexivity|];
     do 12 (split; [reflexivity|]); split;
     [ intros s Hs; unfold sub_scores in Hs;
       apply bind_ok in Hs; destruct Hs as [q [_ Hs]];
       apply bind_ok in Hs; destruct Hs as [q' [_ Hs]];
       injection Hs as <-; split; reflexivity
     | intros r Hr; exact (factor_names_list _ _ Hr) ]).
Qed.

(** X15: when the form gives the emergency fund as amount and expense,
    the expense is posted under the key monthly_expense, which is no
    field of the request model; the input is left without monthly
    expenses, the emergency ratio is 0.0 and the emergency score 30.0,
    whatever the amount and the expense are. *)
Theorem form_amount_choice_lost
        (f : Front.Form) (amount expense : Z) :
  Front.emergency_choice f = Front.AmountExpense amount expense ->
  exists data,
    InvestorInput_validate (Front.payload f) = Some data
    /\ emergency_fund_amount data = Some amount
    /\ monthly_expenses data = None
    /\ emergency_fund_months data = None
    /\ emergency_ratio data = Ok 0.0
    /\ (forall s, sub_scores data = Ok s -> emergency_score s = 30.0).
Proof.
  destruct f as [a mi me ch hh hl dep ra ik dd]. cbn. intros ->.
  destruct dd;
    (eexists; split; [reflexivity|]; do 4 (split; [reflexivity|]);
     intros s Hs; unfold sub_scores in Hs;
     apply bind_ok in Hs; destruct Hs as [q [_ Hs]];
     apply bind_ok in Hs; destruct Hs as [q' [Hq' Hs]];
     injection Hs as <-; cbn in Hq'; injection Hq' as <-; reflexivity).
Qed.

Lemma form_request_witness :
  exists data r,
    InvestorInput_validate
      (Front.payload
         {| Front.age := 28; Front.monthly_income := 120000;
            Front.monthly_emi := 15000;
            Front.emergency_choice := Front.Months 4.0;
            Front.has_health := true; Front.has_life := false;
            Front.dependants := 1; Front.risk_attitude := 3;
            Front.investment_knowledge := 3;
            Front.drawdown_reaction := Front.wait |}) = Some data
    /\ classify_investor data = Ok r
    /\ List.length (factors r) = 7%nat.
Proof.
  destruct (form_request
              {| Front.age := 28; Front.monthly_income := 120000;
                 Front.monthly_emi := 15000;
                 Front.emergency_choice := Front.Months 4.0;
                 Front.has_health := true; Front.has_life := false;
                 Front.dependants := 1; Front.risk_attitude := 3;
                 Front.investment_knowledge := 3;
                 Front.drawdown_reaction := Front.wait |})
    as (data & Hv & _ & _ & _ & _ & _ & _ & _ & _ & _ & _ & _ & _ & _ & _
        & Hnames).
  assert (exists r, classify_investor data = Ok r) as [r Hr].
  { vm_compute in Hv. injection Hv as <-. eexists. vm_compute. reflexivity. }
  exists data, r. split; [exact Hv|]. split; [exact Hr|].
  rewrite <- (length_map name), (Hnames r Hr). reflexivity.
Defined.

Lemma form_amount_choice_lost_witness :
  exists data s,
    InvestorInput_validate
      (Front.payload
         {| Front.age := 28; Front.monthly_income := 120000;
            Front.monthly_emi := 15000;
            Front.emergency_choice := Front.AmountExpense 300000 75000;
            Front.has_health := true; Front.has_life := false;
            Front.dependants := 1; Front.risk_attitude := 3;
            Front.investment_knowledge := 3;
            Front.drawdown_reaction := Front.wait |}) = Some data
    /\ monthly_expenses data = None
    /\ sub_scores data = Ok s
    /\ emergency_score s = 30.0.
Proof.
  destruct (form_amount_choice_lost
              {| Front.age := 28; Front.monthly_income := 120000;
                 Front.monthly_emi := 15000;
                 Front.emergency_choice := Front.AmountExpense 300000 75000;
                 Front.has_health := true; Front.has_life := false;
                 Front.dependants := 1; Front.risk_attitude := 3;
                 Front.investment_knowledge := 3;
                 Front.drawdown_reaction := Front.wait |}
              300000 75000 eq_refl)
    as (data & Hv & _ & Hx & _ & _ & Hs).
  assert (exists s, sub_scores data = Ok s) as [s Hsub].
  { vm_compute in Hv. injection Hv as <-. eexists. vm_compute. reflexivity. }
  exists data, s. split; [exact Hv|]. split; [exact Hx|].
  split; [exact Hsub | exact (Hs s Hsub)].
Defined.
